(** * ai-templates: the template generator of [src/index.ts] and [src/cli.ts]

    A shallow embedding of the command-line tool: the static option tables,
    the three selection prompts, [generateTemplate] and [runCLI], over a model
    of the services the program calls (the [fs-extra] file operations, the
    [inquirer] prompt, [chalk] and the console). *)

From Stdlib Require Import String Ascii List Bool Arith Lia.
Import ListNotations.
Local Open Scope string_scope.
Local Open Scope list_scope.

Set Implicit Arguments.
Set Warnings "-register-all".

(** ** Option tables *)

Module Tables.

(** [interface Choice { name: string; value: string }] *)
Record Choice := mkChoice { name : string; value : string }.

Definition AI_OPTIONS : list Choice :=
  [ mkChoice "Cursor" "cursor";
    mkChoice "Claude" "claude";
    mkChoice "Gemini" "gemini" ].

Definition CATEGORY_OPTIONS : list Choice :=
  [ mkChoice "Backend" "backend";
    mkChoice "Frontend" "frontend";
    mkChoice "Infrastructure" "infra" ].

(** The own properties of the object literal [FRAMEWORK_OPTIONS], in the
    order they are written. *)
Definition FRAMEWORK_OPTIONS_own : list (string * list Choice) :=
  [ ("backend",
      [ mkChoice "Fastify" "fastify";
        mkChoice "NestJS" "nestjs";
        mkChoice "Koa" "koa";
        mkChoice "Express" "express";
        mkChoice "Hapi" "hapi" ]);
    ("frontend",
      [ mkChoice "React" "react";
        mkChoice "Vue" "vue";
        mkChoice "Angular" "angular";
        mkChoice "Svelte" "svelte";
        mkChoice "Next.js" "nextjs" ]);
    ("infra",
      [ mkChoice "Docker" "docker";
        mkChoice "Kubernetes" "kubernetes";
        mkChoice "Terraform" "terraform";
        mkChoice "AWS CDK" "aws-cdk";
        mkChoice "Pulumi" "pulumi" ]) ].

(** Association lists keyed by strings: first binding wins. *)
Fixpoint assoc {A : Type} (k : string) (l : list (string * A)) : option A :=
  match l with
  | [] => None
  | (k', v) :: l' => if String.eqb k k' then Some v else assoc k l'
  end.

(** The property names every object literal inherits from
    [Object.prototype]; each of them is a function, or an object for
    [__proto__], hence truthy. *)
Definition objectPrototypeKeys : list string :=
  [ "constructor"; "__proto__"; "hasOwnProperty"; "isPrototypeOf";
    "propertyIsEnumerable"; "toLocaleString"; "toString"; "valueOf";
    "__defineGetter__"; "__defineSetter__";
    "__lookupGetter__"; "__lookupSetter__" ].

(** What an index expression [FRAMEWORK_OPTIONS[key]] can evaluate to. *)
Inductive jsval :=
| JUndefined
| JArray (choices : list Choice)
| JInherited (property : string).

Definition mem (k : string) (l : list string) : bool :=
  existsb (String.eqb k) l.

(** [FRAMEWORK_OPTIONS[key]]: an own property, else the prototype chain,
    else [undefined]. *)
Definition FRAMEWORK_OPTIONS (key : string) : jsval :=
  match assoc key FRAMEWORK_OPTIONS_own with
  | Some l => JArray l
  | None => if mem key objectPrototypeKeys then JInherited key else JUndefined
  end.

(** JavaScript truthiness: arrays (also empty ones), functions and objects
    are truthy, [undefined] is falsy. *)
Definition truthy (v : jsval) : bool :=
  match v with
  | JUndefined => false
  | JArray _ | JInherited _ => true
  end.

Definition values (l : list Choice) : list string := map value l.

Definition is_key (k : string) : bool :=
  match assoc k FRAMEWORK_OPTIONS_own with Some _ => true | None => false end.

End Tables.

(** ** Paths *)

Module Paths.

(** An absolute, normalised POSIX path: its segments from the root. *)
Definition path := list string.

(** [segments_from s cur]: split [s] at every slash; [cur] is the segment
    being read. *)
Fixpoint segments_from (s : string) (cur : string) : list string :=
  match s with
  | EmptyString => [cur]
  | String c s' =>
      if Ascii.eqb c "/" then cur :: segments_from s' ""
      else segments_from s' (cur ++ String c "")%string
  end.

Definition segments (s : string) : list string := segments_from s "".

(** One step of [path.normalize]: empty and [.] segments vanish, [..]
    climbs to the parent (and stays at the root). *)
Definition push (stack : path) (seg : string) : path :=
  if String.eqb seg "" then stack
  else if String.eqb seg "." then stack
  else if String.eqb seg ".." then removelast stack
  else stack ++ [seg].

(** [path.join(base, ...args)] for an absolute normalised [base]. *)
Definition path_join (base : path) (args : list string) : path :=
  fold_left push (flat_map segments args) base.

(** [path.dirname] *)
Definition dirname_of (p : path) : path := removelast p.

(** The string a path prints as. *)
Definition path_to_string (p : path) : string :=
  match p with
  | [] => "/"
  | _ => String.concat "" (map (fun seg => ("/" ++ seg)%string) p)
  end.

Fixpoint path_eqb (p q : path) : bool :=
  match p, q with
  | [], [] => true
  | a :: p', b :: q' => String.eqb a b && path_eqb p' q'
  | _, _ => false
  end.

(** [is_prefix p q]: [q] is [p] or lies below it. *)
Fixpoint is_prefix (p q : path) : bool :=
  match p, q with
  | [], _ => true
  | a :: p', b :: q' => String.eqb a b && is_prefix p' q'
  | _ :: _, [] => false
  end.

(** [String.prototype.includes] *)
Fixpoint starts_with (pre s : string) : bool :=
  match pre, s with
  | EmptyString, _ => true
  | String a pre', String b s' => Ascii.eqb a b && starts_with pre' s'
  | String _ _, EmptyString => false
  end.

Fixpoint includes (s sub : string) : bool :=
  starts_with sub s ||
  match s with
  | EmptyString => false
  | String _ s' => includes s' sub
  end.

End Paths.

(** ** The file system *)

Module Fs.
Import Paths.

(** A file-system object: a regular file with its bytes, or a directory
    with its entries. *)
Inductive node :=
| File (data : string)
| Dir (entries : list (string * node)).

Definition entries_t := list (string * node).

Definition get (k : string) (es : entries_t) : option node := Tables.assoc k es.

(** Replace the entry named [k], or add it. *)
Fixpoint set (k : string) (v : node) (es : entries_t) : entries_t :=
  match es with
  | [] => [(k, v)]
  | (k', v') :: es' =>
      if String.eqb k k' then (k, v) :: es' else (k', v') :: set k v es'
  end.

(** Remove the entry named [k]. *)
Fixpoint del (k : string) (es : entries_t) : entries_t :=
  match es with
  | [] => []
  | (k', v') :: es' =>
      if String.eqb k k' then del k es' else (k', v') :: del k es'
  end.

Definition isDirectory (n : node) : bool :=
  match n with Dir _ => true | File _ => false end.

(** [fs.stat]: the object at a path, below [n]. *)
Fixpoint stat (p : path) (n : node) : option node :=
  match p with
  | [] => Some n
  | seg :: rest =>
      match n with
      | Dir es =>
          match get seg es with
          | Some c => stat rest c
          | None => None
          end
      | File _ => None
      end
  end.

(** Directory names are unique, at every level. *)
Fixpoint nodupb (l : list string) : bool :=
  match l with
  | [] => true
  | k :: l' => negb (Tables.mem k l') && nodupb l'
  end.

Fixpoint wf (n : node) : bool :=
  match n with
  | File _ => true
  | Dir es => nodupb (map fst es) && forallb (fun kv => wf (snd kv)) es
  end.

(** [mkdir -p]: [None] when a regular file is in the way. *)
Fixpoint mkdirp (p : path) (n : node) : option node :=
  match n with
  | File _ => None
  | Dir es =>
      match p with
      | [] => Some n
      | seg :: rest =>
          let child := match get seg es with Some c => c | None => Dir [] end in
          match mkdirp rest child with
          | Some c' => Some (Dir (set seg c' es))
          | None => None
          end
      end
  end.

(** Write [v] at [p] (missing parents are created as directories; a
    regular file in the way leaves the tree as it is). *)
Fixpoint put (p : path) (v : node) (n : node) : node :=
  match p with
  | [] => v
  | seg :: rest =>
      match n with
      | Dir es =>
          let child := match get seg es with Some c => c | None => Dir [] end in
          Dir (set seg (put rest v child) es)
      | File _ => n
      end
  end.

(** [fs.remove] ([rm -rf]): no error when nothing is there. *)
Fixpoint remove (p : path) (n : node) : node :=
  match p with
  | [] => n
  | seg :: rest =>
      match n with
      | Dir es =>
          match rest with
          | [] => Dir (del seg es)
          | _ =>
              match get seg es with
              | Some c => Dir (set seg (remove rest c) es)
              | None => n
              end
          end
      | File _ => n
      end
  end.

(** Errors of the file operations. *)
Inductive fserror :=
| EEXIST (p : path)
| ENOTDIR (p : path)
| ENOENT (p : path)
| SamePath
| OverwriteNonDir (dest src : path)
| OverwriteDir (dest src : path)
| SubdirOfSelf (funcName : string) (src dest : path).

Definition quote (p : path) : string :=
  ("'" ++ path_to_string p ++ "'")%string.

Definition fserror_message (e : fserror) : string :=
  (match e with
  | EEXIST p => "EEXIST: file already exists, mkdir " ++ quote p
  | ENOTDIR p => "ENOTDIR: not a directory, mkdir " ++ quote p
  | ENOENT p => "ENOENT: no such file or directory, lstat " ++ quote p
  | SamePath => "Source and destination must not be the same."
  | OverwriteNonDir dest src =>
      "Cannot overwrite non-directory " ++ quote dest
        ++ " with directory " ++ quote src ++ "."
  | OverwriteDir dest src =>
      "Cannot overwrite directory " ++ quote dest
        ++ " with non-directory " ++ quote src ++ "."
  | SubdirOfSelf funcName src dest =>
      "Cannot " ++ funcName ++ " " ++ quote src
        ++ " to a subdirectory of itself, " ++ quote dest ++ "."
  end)%string.

(** [stat.checkPaths] of fs-extra, shared by [copy] and [move]. *)
Definition checkPaths (funcName : string) (src dest : path) (fs : node)
  : fserror + node :=
  match stat src fs with
  | None => inl (ENOENT src)
  | Some s =>
      let kinds :=
        match stat dest fs with
        | Some d =>
            if path_eqb src dest then Some SamePath
            else if isDirectory s && negb (isDirectory d)
            then Some (OverwriteNonDir dest src)
            else if negb (isDirectory s) && isDirectory d
            then Some (OverwriteDir dest src)
            else None
        | None => None
        end in
      match kinds with
      | Some e => inl e
      | None =>
          if isDirectory s && is_prefix src dest
          then inl (SubdirOfSelf funcName src dest)
          else inr s
      end
  end.

(** The loop of the recursive copy over the entries [es] of a source
    directory, writing into the entries [ds] of the destination directory;
    [onItem k v d] copies the entry [v] named [k] onto what the destination
    has under that name. The entries are taken in directory order and the
    first failure ends the loop. The library itself promises no order among
    the entries: when one of them cannot be copied, what is written here is
    one of the states a failed copy can leave, and the properties below use
    a failed copy only for what it never touches, the paths outside the
    destination. *)
Section CopyItems.
Variable onItem : string -> node -> option node -> node * option fserror.

Fixpoint copyItems (es ds : entries_t) : entries_t * option fserror :=
  match es with
  | [] => (ds, None)
  | (k, v) :: es' =>
      match onItem k v (get k ds) with
      | (n, None) => copyItems es' (set k n ds)
      | (n, Some e) => (set k n ds, Some e)
      end
  end.
End CopyItems.

(** The recursive copy of the tree [s], read at [sp], onto what is at
    [dp] ([d], if anything): a file overwrites a file, a directory is
    created if missing and merged entry by entry, in directory order. A
    file meeting a directory (or the reverse) fails, as [checkPaths] has
    it. The result is the object at [dp] afterwards and the error, if any. *)
Fixpoint mergeNode (sp dp : path) (s : node) (d : option node) {struct s}
  : node * option fserror :=
  match s with
  | File c =>
      match d with
      | Some (Dir ds) => (Dir ds, Some (OverwriteDir dp sp))
      | _ => (File c, None)
      end
  | Dir es =>
      match d with
      | Some (File c) => (File c, Some (OverwriteNonDir dp sp))
      | _ =>
          let ds0 := match d with Some (Dir ds) => ds | _ => [] end in
          let (ds', e) :=
            copyItems
              (fun k v d' => mergeNode (sp ++ [k]) (dp ++ [k]) v d') es ds0 in
          (Dir ds', e)
      end
  end.

(** No file of the tree [s] would land on a directory of [d], and no
    directory of [s] on a file: what [checkPaths] asks of every pair the
    copy meets. *)
Fixpoint compatible (s : node) (d : option node) {struct s} : bool :=
  match s with
  | File _ =>
      match d with
      | Some (Dir _) => false
      | _ => true
      end
  | Dir es =>
      match d with
      | Some (File _) => false
      | Some (Dir ds) =>
          forallb (fun kv => compatible (snd kv) (get (fst kv) ds)) es
      | None => true
      end
  end.

(** The loop of [mergeNode] at the directory read at [sp] and written at
    [dp]. *)
Definition mergeItems (sp dp : path) : entries_t -> entries_t
                                       -> entries_t * option fserror :=
  copyItems (fun k v d' => mergeNode (sp ++ [k]) (dp ++ [k]) v d').

End Fs.

(** ** The process: its state, and the services the program calls *)

Module Proc.
Import Paths Fs.
Export Tables.

(** A thrown JavaScript value: an [Error] object with its message, or
    anything else; [tty] tells whether the value is an object that has the
    property [isTtyError] (the mark inquirer puts on the error of its
    terminal check, a check that version 8 leaves switched off unless the
    caller asks for it). *)
Inductive thrown :=
| JsError (message : string) (tty : bool)
| JsOther (tty : bool).

Inductive color := Blue | Gray | Red | Green | Yellow.

(** What the process does that can be seen from outside, in order. *)
Inductive event :=
| Log (c : color) (text : string)
| LogError (text : string)
| Prompt (message : string) (choices : jsval).

(** How a list prompt ends: the user moves the cursor down [downs] times
    (the list wraps around) and presses Enter; or the promise of the prompt
    rejects; or the input ends or is interrupted (no terminal, Ctrl-C)
    while the question is pending, and inquirer 8 then ends the process
    itself, with [process.kill(process.pid, 'SIGINT')]. *)
Inductive reply :=
| Pick (downs : nat)
| Rejects (e : thrown)
| Closed.

Record world := mkWorld {
  disk : node;                (* the file system, from the root *)
  cwd : path;                 (* process.cwd() *)
  dirname : path;             (* __dirname of the compiled module *)
  console : list event;       (* what was printed and asked so far *)
  answers : nat -> reply;     (* how the n-th question on the terminal ends *)
  prompted : nat;             (* the number of questions so far *)
  refusal : jsval -> string   (* the message of the error inquirer fails
                                 with when [choices] is this value and no
                                 list: the library's text, left open *)
}.

Definition with_disk (d : node) (w : world) : world :=
  mkWorld d (cwd w) (dirname w) (console w) (answers w) (prompted w)
    (refusal w).

Definition emit (e : event) (w : world) : world :=
  mkWorld (disk w) (cwd w) (dirname w) (console w ++ [e]) (answers w)
    (prompted w) (refusal w).

Definition next_prompt (w : world) : world :=
  mkWorld (disk w) (cwd w) (dirname w) (console w) (answers w)
    (S (prompted w)) (refusal w).

(** An awaited call returns or throws, or it never settles because the
    process was ended meanwhile; in each case the world has moved. *)
Inductive result (A : Type) :=
| Returned (a : A)
| Thrown (e : thrown)
| Killed.
Arguments Returned {A} a.
Arguments Thrown {A} e.
Arguments Killed {A}.

Definition M (A : Type) := world -> world * result A.

Definition ret {A} (a : A) : M A := fun w => (w, Returned a).

Definition bind {A B} (m : M A) (k : A -> M B) : M B :=
  fun w =>
    match m w with
    | (w', Returned a) => k a w'
    | (w', Thrown e) => (w', Thrown e)
    | (w', Killed) => (w', Killed)
    end.

Definition throw {A} (e : thrown) : M A := fun w => (w, Thrown e).

(** [try { body } catch (error) { handler }] *)
Definition try_catch {A} (body : M A) (handler : thrown -> M A) : M A :=
  fun w =>
    match body w with
    | (w', Returned a) => (w', Returned a)
    | (w', Thrown e) => handler e w'
    | (w', Killed) => (w', Killed)
    end.

Definition run {A} (m : M A) (w : world) : world * result A := m w.

Declare Scope prog_scope.
Delimit Scope prog_scope with prog.
Notation "x <- c ;; k" := (bind c (fun x => k))
  (at level 61, c at next level, right associativity) : prog_scope.
Notation "c ;;; k" := (bind c (fun _ => k))
  (at level 61, right associativity) : prog_scope.
Local Open Scope prog_scope.

Definition fs_throw {A} (e : fserror) : M A :=
  throw (JsError (fserror_message e) false).

(** [console.log(chalk.<c>(text))] *)
Definition console_log (c : color) (text : string) : M unit :=
  fun w => (emit (Log c text) w, Returned tt).

(** [process.cwd()] *)
Definition process_cwd : M path := fun w => (w, Returned (cwd w)).

(** [fs.pathExists] *)
Definition pathExists (p : path) : M bool :=
  fun w =>
    (w, Returned (match stat p (disk w) with Some _ => true | None => false end)).

(** [fs.ensureDir]: [mkdir -p]; throws when a regular file is in the way
    and then changes nothing. *)
Definition ensureDir (p : path) : M unit :=
  fun w =>
    match mkdirp p (disk w) with
    | Some d => (with_disk d w, Returned tt)
    | None =>
        match stat p (disk w) with
        | Some _ => fs_throw (EEXIST p) w
        | None => fs_throw (ENOTDIR p) w
        end
    end.

(** [fs.copy(src, dest)] with its default options (overwrite). The tree at
    [src] is read first and then written at [dest]; that is what the
    library does whenever neither path lies inside the other. *)
Definition copy (src dest : path) : M unit :=
  fun w =>
    match checkPaths "copy" src dest (disk w) with
    | inl e => fs_throw e w
    | inr s =>
        match mkdirp (dirname_of dest) (disk w) with
        | None => fs_throw (ENOTDIR (dirname_of dest)) w
        | Some d1 =>
            match mergeNode src dest s (stat dest d1) with
            | (n, None) => (with_disk (put dest n d1) w, Returned tt)
            | (n, Some e) => fs_throw e (with_disk (put dest n d1) w)
            end
        end
    end.

(** [fs.move(src, dest, { overwrite: true })]: after the checks, the
    parent of [dest] is created, [dest] is removed and [src] is renamed. *)
Definition move_overwrite (src dest : path) : M unit :=
  fun w =>
    match checkPaths "move" src dest (disk w) with
    | inl e => fs_throw e w
    | inr s =>
        match mkdirp (dirname_of dest) (disk w) with
        | None => fs_throw (ENOTDIR (dirname_of dest)) w
        | Some d1 =>
            let d2 := remove dest d1 in
            (with_disk (put dest s (remove src d2)) w, Returned tt)
        end
    end.

(** [inquirer.prompt] with one question of type [list]; the value is the
    answer to that question. With a list of choices the question is shown
    and ends as the terminal has it. A [choices] value that is no list (the
    tables never give an empty one) makes the library fail before anything
    is shown: the promise rejects with an [Error] of the library. *)
Definition inquirer_prompt (message : string) (choices : jsval) : M string :=
  fun w =>
    match choices with
    | JArray (c0 :: l) =>
        let w1 := next_prompt (emit (Prompt message choices) w) in
        match answers w (prompted w) with
        | Pick downs =>
            (w1, Returned
                   (value (nth (downs mod (length (c0 :: l))) (c0 :: l) c0)))
        | Rejects e => (w1, Thrown e)
        | Closed => (w1, Killed)
        end
    | _ => (w, Thrown (JsError (refusal w choices) false))
    end.

End Proc.

(** ** The program *)

Module Generator.
Import Paths Fs.
Export Proc.
Local Open Scope prog_scope.
Local Open Scope string_scope.

Definition nl : string := String (ascii_of_nat 10) "".

(** [class TemplateGenerator { private templatesDir: string }] *)
Record TemplateGenerator := mkGenerator { templatesDir : path }.

(** The constructor: [path.join(__dirname, '..', 'templates')]. *)
Definition new_TemplateGenerator : M TemplateGenerator :=
  fun w => (w, Returned (mkGenerator (path_join (dirname w) [".."; "templates"]))).

Definition selectAI (this : TemplateGenerator) : M string :=
  console_log Blue "🚀 AI Templates Generator" ;;;
  console_log Gray ("Generate templates for your favorite AI tools" ++ nl) ;;;
  ai <- inquirer_prompt "Please select the AI you want to use:"
          (JArray AI_OPTIONS) ;;
  ret ai.

Definition selectCategory (this : TemplateGenerator) : M string :=
  category <- inquirer_prompt "Please select the category:"
                (JArray CATEGORY_OPTIONS) ;;
  ret category.

Definition selectFramework (this : TemplateGenerator) (category : string)
  : M string :=
  let frameworks := FRAMEWORK_OPTIONS category in
  if negb (truthy frameworks) then
    throw (JsError ("No frameworks available for category: " ++ category) false)
  else
    framework <- inquirer_prompt
                   ("Please select the " ++ category ++ " framework:")
                   frameworks ;;
    ret framework.

(** [error instanceof Error ? error.message : 'Unknown error'] *)
Definition errorMessage_of (error : thrown) : string :=
  match error with
  | JsError message _ => message
  | JsOther _ => "Unknown error"
  end.

(** The two paths [generateTemplate] computes: the template directory
    [path.join(this.templatesDir, ai, category, framework)] and the output
    directory [path.join(process.cwd(), `.${ai}`)]. *)
Definition templatePath_of (this : TemplateGenerator)
    (ai category framework : string) : path :=
  path_join (templatesDir this) [ai; category; framework].

Definition outputDir_of (here : path) (ai : string) : path :=
  path_join here ["." ++ ai].

Definition generateTemplate (this : TemplateGenerator)
    (ai category framework : string) : M unit :=
  let templatePath := templatePath_of this ai category framework in
  found <- pathExists templatePath ;;
  if negb found then
    console_log Red
      ("❌ Template not found for " ++ ai ++ "/" ++ category ++ "/" ++ framework)
  else
    here <- process_cwd ;;
    let outputDir := outputDir_of here ai in
    ensureDir outputDir ;;;
    try_catch
      (copy templatePath outputDir ;;;
       (if String.eqb ai "cursor" then
          let oldRulesPath := path_join outputDir [".cursorrules"] in
          legacy <- pathExists oldRulesPath ;;
          if legacy then
            let rulesDir := path_join outputDir ["rules"] in
            ensureDir rulesDir ;;;
            let newRulesPath := path_join rulesDir ["rules.mdc"] in
            move_overwrite oldRulesPath newRulesPath
          else ret tt
        else ret tt) ;;;
       console_log Green
         ("✅ Successfully generated " ++ ai ++ " template for "
            ++ framework ++ "!") ;;;
       console_log Gray ("📁 Files created in: " ++ path_to_string outputDir))
      (fun error =>
         let errorMessage := errorMessage_of error in
         console_log Red ("❌ Error generating template: " ++ errorMessage)).

(** [error && typeof error === 'object' && 'isTtyError' in error] *)
Definition has_isTtyError (error : thrown) : bool :=
  match error with
  | JsError _ tty => tty
  | JsOther tty => tty
  end.

Definition runCLI : M unit :=
  generator <- new_TemplateGenerator ;;
  try_catch
    (ai <- selectAI generator ;;
     category <- selectCategory generator ;;
     framework <- selectFramework generator category ;;
     console_log Yellow
       (nl ++ "🔧 Generating " ++ ai ++ " template for " ++ framework ++ "...") ;;;
     generateTemplate generator ai category framework)
    (fun error =>
       if has_isTtyError error then
         console_log Red
           "❌ Prompt couldn't be rendered in the current environment"
       else
         let errorMessage := errorMessage_of error in
         console_log Red ("❌ Error: " ++ errorMessage)).

(** [error.message] of what [runCLI] rejected with, as [console.error]
    prints it. *)
Definition message_printed (error : thrown) : string :=
  match error with
  | JsError message _ => message
  | JsOther _ => "undefined"
  end.

(** The status a shell reports for a process that SIGINT has ended:
    128 plus the number of the signal. *)
Definition killed_by_SIGINT : nat := 130.

(** [cli.ts]: [runCLI().catch(error => { console.error(...); process.exit(1) })];
    the value is the exit status of the process: 0 when [runCLI] resolves
    and the process runs out of work, 1 from the handler, and that of
    SIGINT when the prompt library has ended the process. *)
Definition cli (w : world) : world * nat :=
  match run runCLI w with
  | (w', Returned _) => (w', 0)
  | (w', Thrown error) =>
      (emit (LogError ("Error: " ++ message_printed error)) w', 1)
  | (w', Killed) => (w', killed_by_SIGINT)
  end.

End Generator.

(** ** Observations and sample worlds used in the statements *)

Module Scenario.
Import Paths Fs Generator.
Local Open Scope string_scope.

(** The rejection that ends the selection phase, if one of the three
    prompts rejects: they are asked in turn, and the first rejection is
    what [runCLI] catches. *)
Definition first_rejection (w : world) : option thrown :=
  match answers w (prompted w) with
  | Rejects e => Some e
  | Closed => None
  | Pick _ =>
      match answers w (S (prompted w)) with
      | Rejects e => Some e
      | Closed => None
      | Pick _ =>
          match answers w (S (S (prompted w))) with
          | Rejects e => Some e
          | _ => None
          end
      end
  end.

(** Whether the input ends while one of the three questions is pending:
    the questions before it were answered. *)
Definition input_closes (w : world) : bool :=
  match answers w (prompted w) with
  | Closed => true
  | Rejects _ => false
  | Pick _ =>
      match answers w (S (prompted w)) with
      | Closed => true
      | Rejects _ => false
      | Pick _ =>
          match answers w (S (S (prompted w))) with
          | Closed => true
          | _ => false
          end
      end
  end.

(** The two lines [generateTemplate] prints last when nothing failed. *)
Definition success_block (ai framework : string) (outputDir : path)
  : list event :=
  [ Log Green ("✅ Successfully generated " ++ ai ++ " template for "
                 ++ framework ++ "!");
    Log Gray ("📁 Files created in: " ++ path_to_string outputDir) ].

(** The post-processing step of [generateTemplate], between the copy and
    the success block, by itself. *)
Definition legacy_migration (ai : string) (outputDir : path) : M unit :=
  (if String.eqb ai "cursor" then
     let oldRulesPath := path_join outputDir [".cursorrules"] in
     legacy <- pathExists oldRulesPath ;;
     if legacy then
       let rulesDir := path_join outputDir ["rules"] in
       ensureDir rulesDir ;;;
       let newRulesPath := path_join rulesDir ["rules.mdc"] in
       move_overwrite oldRulesPath newRulesPath
     else ret tt
   else ret tt)%prog.

(** The entries of the [rules] directory the migration moves into, among
    the entries [m] of the output directory: none yet when the directory
    is missing, and no such directory when a regular file has the name. *)
Definition rules_entries (m : entries_t) : option entries_t :=
  match get "rules" m with
  | None => Some []
  | Some (Dir r) => Some r
  | Some (File _) => None
  end.

(** [checkPaths] lets [moved] replace [target] when both are directories
    or neither is. *)
Definition same_kind (moved : node) (target : option node) : bool :=
  match target with
  | None => true
  | Some d => Bool.eqb (isDirectory moved) (isDirectory d)
  end.

(** What a successful copy of the template, whose entries are [es],
    leaves at the relative path [q] of the output directory, whose entries
    were [ds], as far as its kind goes: the object of the template where
    the template has one, and else what was there. *)
Definition left_by_copy (es ds : entries_t) (q : path) : option node :=
  match stat q (Dir es) with
  | Some n => Some n
  | None => stat q (Dir ds)
  end.

Definition is_file (o : option node) : bool :=
  match o with
  | Some (File _) => true
  | _ => false
  end.

(** The migration step has nothing to do or can do it: after the copy
    either there is no [.cursorrules], or [rules] is no regular file and
    what is at [rules/rules.mdc], if anything, is a directory exactly when
    [.cursorrules] is one. *)
Definition migration_unhindered (es ds : entries_t) : bool :=
  match left_by_copy es ds [".cursorrules"] with
  | None => true
  | Some legacy =>
      negb (is_file (left_by_copy es ds ["rules"])) &&
      same_kind legacy (left_by_copy es ds ["rules"; "rules.mdc"])
  end.

(** The entries of the output directory after the migration moved
    [legacy] from [.cursorrules] to [rules/rules.mdc], [r] being the
    entries of [rules] before. *)
Definition migrated (m : entries_t) (legacy : node) (r : entries_t)
  : entries_t :=
  let r' := del "rules.mdc" r in
  set "rules" (Dir (set "rules.mdc" legacy r'))
    (del ".cursorrules" (set "rules" (Dir r') (set "rules" (Dir r) m))).

(** The value of the choice a list prompt returns after [downs] presses
    of the down arrow. *)
Definition picked (options : list Choice) (downs : nat) : string :=
  match options with
  | c0 :: _ => value (nth (downs mod length options) options c0)
  | [] => ""
  end.

(** The world when [runCLI] calls [generateTemplate]: the banner has been
    printed, the three questions asked (the third with the choices [fws])
    and the status line printed. *)
Definition after_selection (w : world) (category : string)
    (fws : list Choice) (ai framework : string) : world :=
  emit (Log Yellow (nl ++ "🔧 Generating " ++ ai ++ " template for "
                       ++ framework ++ "..."))
    (next_prompt
       (emit (Prompt ("Please select the " ++ category ++ " framework:")
                (JArray fws))
          (next_prompt
             (emit (Prompt "Please select the category:"
                      (JArray CATEGORY_OPTIONS))
                (next_prompt
                   (emit (Prompt "Please select the AI you want to use:"
                            (JArray AI_OPTIONS))
                      (emit (Log Gray
                               ("Generate templates for your favorite AI tools"
                                  ++ nl))
                         (emit (Log Blue "🚀 AI Templates Generator") w)))))))).

(** A machine with the package installed under [/opt/ai-templates] (its
    templates being [templates]) and a project in [/home/dev/app]. *)
Definition machine (templates project : node) : node :=
  Dir [ ("opt", Dir [ ("ai-templates",
                        Dir [ ("dist", Dir [ ("cli.js", File "#!/usr/bin/env node");
                                             ("index.js", File "exports.runCLI") ]);
                              ("templates", templates) ]) ]);
        ("home", Dir [ ("dev", Dir [ ("app", project) ]) ]) ].

Definition project_dir : path := ["home"; "dev"; "app"].
Definition dist_dir : path := ["opt"; "ai-templates"; "dist"].

(** A stand-in for the text of the library's own failures in the sample
    worlds; no statement reads it. *)
Definition library_text : jsval -> string := fun _ => "(inquirer's message)".

Definition boot (templates project : node) (terminal : nat -> reply) : world :=
  mkWorld (machine templates project) project_dir dist_dir [] terminal 0
    library_text.

(** The user accepts the first choice of every prompt. *)
Definition enter : nat -> reply := fun _ => Pick 0.

(** No terminal: the input is at its end when the first question is
    shown, and stays there. *)
Definition no_terminal : nat -> reply := fun _ => Closed.

(** The error of inquirer's terminal check, and a prompt layer that has
    the check switched on and no terminal: every prompt rejects with it. *)
Definition no_tty_error : thrown :=
  JsError "Prompts can not be meaningfully rendered in non-TTY environments" true.
Definition terminal_check_fails : nat -> reply := fun _ => Rejects no_tty_error.

(** The generator [runCLI] constructs on that machine. *)
Definition generator : TemplateGenerator :=
  mkGenerator ["opt"; "ai-templates"; "templates"].

(** A templates root with one template, [tool/category/framework]. *)
Definition one_template (tool category framework : string) (t : node) : node :=
  Dir [ (tool, Dir [ (category, Dir [ (framework, t) ]) ]) ].

End Scenario.

(** * Properties *)

Import Paths Fs Generator.
Local Open Scope string_scope.
Unset Implicit Arguments.

(** ** The option tables *)

(** C8. The option tables agree with each other: every category of
    [CATEGORY_OPTIONS] is a key of [FRAMEWORK_OPTIONS]; every category of the
    table has at least one framework; a framework identifier listed under
    two keys is listed under one and the same category, and no identifier
    is listed twice. *)
Theorem option_tables_consistent :
  (forall c, In c CATEGORY_OPTIONS -> is_key (value c) = true) /\
  (forall k l, In (k, l) FRAMEWORK_OPTIONS_own -> l <> []) /\
  (forall f k1 l1 k2 l2,
      In (k1, l1) FRAMEWORK_OPTIONS_own -> In (k2, l2) FRAMEWORK_OPTIONS_own ->
      In f (values l1) -> In f (values l2) -> k1 = k2) /\
  NoDup (flat_map (fun kl => values (snd kl)) FRAMEWORK_OPTIONS_own) /\
  NoDup (map fst FRAMEWORK_OPTIONS_own).
Proof.
  split; [| split; [| split; [| split]]].
  - intros c H; simpl in H.
    repeat (destruct H as [<- | H]; [reflexivity |]); contradiction.
  - intros k l H; simpl in H.
    repeat (destruct H as [H | H]; [inversion H; subst; discriminate |]).
    contradiction.
  - intros f k1 l1 k2 l2 H1 H2 F1 F2; simpl in H1, H2.
    repeat (destruct H1 as [H1 | H1]; [inversion H1; subst; clear H1 |]);
      try contradiction;
      repeat (destruct H2 as [H2 | H2]; [inversion H2; subst; clear H2 |]);
      try contradiction; try reflexivity; exfalso; simpl in F1, F2;
      repeat (destruct F1 as [F1 | F1]; [subst f |]); try contradiction;
      repeat (destruct F2 as [F2 | F2]; [discriminate F2 |]); contradiction.
  - simpl. repeat (constructor; [simpl; intuition discriminate |]). constructor.
  - simpl. repeat (constructor; [simpl; intuition discriminate |]). constructor.
Qed.

Lemma option_tables_consistent_witness :
  is_key "infra" = true /\
  [mkChoice "Docker" "docker"] <> [] /\
  "backend" = "backend".
Proof.
  destruct option_tables_consistent as (Hkey & Hne & Huniq & _).
  split; [| split].
  - apply (Hkey (mkChoice "Infrastructure" "infra")). simpl. tauto.
  - discriminate.
  - eapply (Huniq "koa" "backend" _ "backend" _).
    + left; reflexivity.
    + left; reflexivity.
    + simpl; tauto.
    + simpl; tauto.
Defined.

(** ** Missing template *)

(** C2, as the code has it. When nothing is at the template path,
    neither a directory nor a file, [generateTemplate] prints the red
    "Template not found" line and returns; the file system is the one it
    started from, so the output directory is neither created nor
    changed. *)
Theorem generateTemplate_template_not_found this ai category framework w :
  stat (templatePath_of this ai category framework) (disk w) = None ->
  let out := outputDir_of (cwd w) ai in
  let w' := fst (run (generateTemplate this ai category framework) w) in
  snd (run (generateTemplate this ai category framework) w) = Returned tt /\
  console w' =
    (console w ++
     [Log Red ("❌ Template not found for " ++ ai ++ "/" ++ category ++ "/"
                 ++ framework)])%list /\
  disk w' = disk w /\
  stat out (disk w') = stat out (disk w).
Proof.
  intros H out w'. subst w'.
  unfold generateTemplate, run, bind, pathExists.
  rewrite H. simpl. repeat split.
Qed.

Lemma generateTemplate_template_not_found_witness :
  let w := Scenario.boot (Dir []) (Dir []) Scenario.enter in
  let w' := fst (run (generateTemplate Scenario.generator "gemini" "backend" "express") w) in
  console w' = [Log Red "❌ Template not found for gemini/backend/express"] /\
  stat ["home"; "dev"; "app"; ".gemini"] (disk w') = None.
Proof.
  intros w w'.
  destruct (generateTemplate_template_not_found Scenario.generator
              "gemini" "backend" "express" w) as (_ & Hc & Hd & _).
  - reflexivity.
  - split.
    + exact Hc.
    + unfold w'. rewrite Hd. reflexivity.
Defined.

(** The claim of C2 fails when the template directory does not exist
    but a regular file has its name: [pathExists] is true of a file as
    well. With the package holding the Fastify template and the framework
    given as [fastify/rules/code-style.mdc], the template path is that
    file and no directory; the output directory, which was not there, is
    created, and the line printed is the error of the copy, not
    "Template not found". *)
Lemma file_at_the_template_path_is_not_reported_missing :
  let t := Dir [ ("rules", Dir [ ("code-style.mdc", File "Code Style") ]) ] in
  let w := Scenario.boot
             (Scenario.one_template "cursor" "backend" "fastify" t)
             (Dir []) Scenario.enter in
  let framework := "fastify/rules/code-style.mdc" in
  let tp := templatePath_of Scenario.generator "cursor" "backend" framework in
  let out := outputDir_of (cwd w) "cursor" in
  let w' := fst (run (generateTemplate Scenario.generator
                        "cursor" "backend" framework) w) in
  stat tp (disk w) = Some (File "Code Style") /\
  stat out (disk w) = None /\
  stat out (disk w') = Some (Dir []) /\
  console w' =
    [ Log Red ("❌ Error generating template: "
                 ++ "Cannot overwrite directory '/home/dev/app/.cursor'"
                 ++ " with non-directory "
                 ++ "'/opt/ai-templates/templates/cursor/backend/fastify"
                 ++ "/rules/code-style.mdc'.") ].
Proof. cbv zeta. repeat split. Qed.

(** ** The prompts *)

Lemma inquirer_prompt_list message c0 l w :
  inquirer_prompt message (JArray (c0 :: l)) w =
  (next_prompt (emit (Prompt message (JArray (c0 :: l))) w),
   match answers w (prompted w) with
   | Pick downs =>
       Returned (value (nth (downs mod length (c0 :: l)) (c0 :: l) c0))
   | Rejects e => Thrown e
   | Closed => Killed
   end).
Proof.
  unfold inquirer_prompt. destruct (answers w (prompted w)); reflexivity.
Qed.

Lemma selectAI_eq this w :
  selectAI this w =
  (next_prompt
     (emit (Prompt "Please select the AI you want to use:" (JArray AI_OPTIONS))
        (emit (Log Gray ("Generate templates for your favorite AI tools" ++ nl))
           (emit (Log Blue "🚀 AI Templates Generator") w))),
   match answers w (prompted w) with
   | Pick downs =>
       Returned (value (nth (downs mod 3) AI_OPTIONS (mkChoice "Cursor" "cursor")))
   | Rejects e => Thrown e
   | Closed => Killed
   end).
Proof.
  unfold selectAI, bind, console_log, ret, AI_OPTIONS.
  rewrite inquirer_prompt_list.
  cbn [prompted answers emit].
  destruct (answers w (prompted w)); reflexivity.
Qed.

Lemma selectCategory_eq this w :
  selectCategory this w =
  (next_prompt
     (emit (Prompt "Please select the category:" (JArray CATEGORY_OPTIONS)) w),
   match answers w (prompted w) with
   | Pick downs =>
       Returned (value (nth (downs mod 3) CATEGORY_OPTIONS
                          (mkChoice "Backend" "backend")))
   | Rejects e => Thrown e
   | Closed => Killed
   end).
Proof.
  unfold selectCategory, bind, ret, CATEGORY_OPTIONS.
  rewrite inquirer_prompt_list.
  destruct (answers w (prompted w)); reflexivity.
Qed.

(** For a category that is an own key of the table, [selectFramework]
    asks exactly the list registered under that key. *)
Lemma selectFramework_own_key this category c0 l w :
  assoc category FRAMEWORK_OPTIONS_own = Some (c0 :: l) ->
  selectFramework this category w =
  (next_prompt
     (emit (Prompt ("Please select the " ++ category ++ " framework:")
              (JArray (c0 :: l))) w),
   match answers w (prompted w) with
   | Pick downs =>
       Returned (value (nth (downs mod length (c0 :: l)) (c0 :: l) c0))
   | Rejects e => Thrown e
   | Closed => Killed
   end).
Proof.
  intros H. unfold selectFramework, FRAMEWORK_OPTIONS. rewrite H.
  cbn [truthy negb]. unfold bind, ret.
  rewrite inquirer_prompt_list.
  destruct (answers w (prompted w)); reflexivity.
Qed.

Lemma picked_category_own_key downs :
  exists c l,
    assoc (value (nth (downs mod 3) CATEGORY_OPTIONS (mkChoice "Backend" "backend")))
      FRAMEWORK_OPTIONS_own = Some (c :: l).
Proof.
  assert (H : downs mod 3 < 3) by (apply Nat.mod_upper_bound; discriminate).
  destruct (downs mod 3) as [| [| [| n]]];
    try (do 2 eexists; reflexivity).
  lia.
Qed.

(** ** Framework selection *)

(** X11. The guard of [selectFramework] throws when the index expression is
    [undefined]: the category is neither an own key nor a name inherited
    from [Object.prototype]. Nothing is asked then. *)
Lemma selectFramework_unknown_category this category w :
  is_key category = false ->
  mem category objectPrototypeKeys = false ->
  run (selectFramework this category) w =
  (w, Thrown (JsError ("No frameworks available for category: " ++ category) false)).
Proof.
  unfold is_key, selectFramework, FRAMEWORK_OPTIONS, run. intros Hk Hp.
  destruct (assoc category FRAMEWORK_OPTIONS_own); [discriminate |].
  rewrite Hp. reflexivity.
Qed.

Lemma picked_is_offered options downs :
  options <> [] -> In (Scenario.picked options downs) (values options).
Proof.
  destruct options as [| c0 l]; [congruence |]. intros _.
  unfold Scenario.picked, values. apply in_map, nth_In.
  apply Nat.mod_upper_bound. discriminate.
Qed.

(** A key of the table is listed in it, with its list. *)
Lemma own_key_listed category fws :
  assoc category FRAMEWORK_OPTIONS_own = Some fws ->
  In (category, fws) FRAMEWORK_OPTIONS_own.
Proof.
  unfold FRAMEWORK_OPTIONS_own. cbn [assoc].
  destruct (String.eqb_spec category "backend") as [-> | _];
    [intros [= <-]; left; reflexivity |].
  destruct (String.eqb_spec category "frontend") as [-> | _];
    [intros [= <-]; right; left; reflexivity |].
  destruct (String.eqb_spec category "infra") as [-> | _];
    [intros [= <-]; right; right; left; reflexivity |].
  discriminate.
Qed.

(** No framework is listed under two keys. *)
Lemma framework_under_one_key f k1 l1 k2 l2 :
  In (k1, l1) FRAMEWORK_OPTIONS_own -> In (k2, l2) FRAMEWORK_OPTIONS_own ->
  In f (values l1) -> In f (values l2) -> k1 = k2.
Proof.
  intros H1 H2 F1 F2; simpl in H1, H2.
  repeat (destruct H1 as [H1 | H1]; [inversion H1; subst; clear H1 |]);
    try contradiction;
    repeat (destruct H2 as [H2 | H2]; [inversion H2; subst; clear H2 |]);
    try contradiction; try reflexivity; exfalso; simpl in F1, F2;
    repeat (destruct F1 as [F1 | F1]; [subst f |]); try contradiction;
    repeat (destruct F2 as [F2 | F2]; [discriminate F2 |]); contradiction.
Qed.

(** C5. [selectFramework] fails at once, by throwing, with nothing asked
    and the world as it was, exactly when the category is no key of
    [FRAMEWORK_OPTIONS]. When the index expression is [undefined] the guard
    throws; for a name every object inherits ([constructor], [toString],
    ...) the value passes the guard and it is the prompt library that
    throws, being given choices that are no list. For a key the question
    is asked: its choices are the list registered under that key, every
    framework of which is registered under that key only, and an answer is
    the value of one of them. *)
Theorem selectFramework_fails_exactly_off_the_table this category w :
  ((exists e, run (selectFramework this category) w = (w, Thrown e))
   <-> is_key category = false) /\
  (forall fws,
     assoc category FRAMEWORK_OPTIONS_own = Some fws ->
     let w' := fst (run (selectFramework this category) w) in
     let r := snd (run (selectFramework this category) w) in
     console w' =
       (console w ++
        [ Prompt ("Please select the " ++ category ++ " framework:")
            (JArray fws) ])%list /\
     (forall f k l,
        In f (values fws) -> In (k, l) FRAMEWORK_OPTIONS_own ->
        In f (values l) -> k = category) /\
     match answers w (prompted w) with
     | Pick downs =>
         r = Returned (Scenario.picked fws downs) /\
         In (Scenario.picked fws downs) (values fws)
     | Rejects e => r = Thrown e
     | Closed => r = Killed
     end).
Proof.
  assert (Asked : forall fws,
            assoc category FRAMEWORK_OPTIONS_own = Some fws ->
            exists c0 l, fws = c0 :: l /\
              selectFramework this category w =
              (next_prompt
                 (emit (Prompt ("Please select the " ++ category ++ " framework:")
                          (JArray (c0 :: l))) w),
               match answers w (prompted w) with
               | Pick downs =>
                   Returned (value (nth (downs mod length (c0 :: l)) (c0 :: l) c0))
               | Rejects e => Thrown e
               | Closed => Killed
               end)).
  { intros fws Hk. destruct fws as [| c0 l].
    - apply own_key_listed in Hk. simpl in Hk.
      repeat (destruct Hk as [Hk | Hk]; [discriminate Hk |]). contradiction.
    - exists c0, l. split; [reflexivity |].
      exact (selectFramework_own_key this category c0 l w Hk). }
  split.
  - unfold is_key. split.
    + intros (e & He).
      destruct (assoc category FRAMEWORK_OPTIONS_own) as [fws |] eqn:Hk;
        [| reflexivity].
      destruct (Asked fws eq_refl) as (c0 & l & _ & Hrun).
      unfold run in He. rewrite Hrun in He.
      apply (f_equal (fun x => prompted (fst x))) in He. cbn in He.
      exfalso. revert He. apply Nat.neq_succ_diag_l.
    + intros Hk. unfold run, selectFramework, FRAMEWORK_OPTIONS.
      destruct (assoc category FRAMEWORK_OPTIONS_own); [discriminate |].
      destruct (mem category objectPrototypeKeys); eexists; reflexivity.
  - intros fws Hk w' r. subst w' r.
    destruct (Asked fws Hk) as (c0 & l & -> & Hrun).
    unfold run. rewrite Hrun. split; [reflexivity |]. split.
    + intros f k l' Hf Hl Hf'.
      exact (framework_under_one_key f k l' category (c0 :: l) Hl
               (own_key_listed _ _ Hk) Hf' Hf).
    + destruct (answers w (prompted w)) as [d | e |];
        [| reflexivity | reflexivity].
      split; [reflexivity |]. apply picked_is_offered. discriminate.
Qed.

Lemma selectFramework_fails_exactly_off_the_table_witness :
  let w := Scenario.boot (Dir []) (Dir []) (fun _ => Pick 7) in
  (exists e,
     run (selectFramework Scenario.generator "constructor") w = (w, Thrown e)) /\
  snd (run (selectFramework Scenario.generator "infra") w) = Returned "terraform".
Proof.
  intros w. split.
  - apply (proj1 (selectFramework_fails_exactly_off_the_table
                    Scenario.generator "constructor" w)).
    reflexivity.
  - destruct (proj2 (selectFramework_fails_exactly_off_the_table
                       Scenario.generator "infra" w)
                [ mkChoice "Docker" "docker"; mkChoice "Kubernetes" "kubernetes";
                  mkChoice "Terraform" "terraform"; mkChoice "AWS CDK" "aws-cdk";
                  mkChoice "Pulumi" "pulumi" ]) as (_ & _ & H).
    + reflexivity.
    + exact (proj1 H).
Defined.

(** ** The Fastify scenario *)

(** C9, evaluated. With the package's only template being
    [cursor/backend/fastify] holding one file [rules.mdc], and the command
    run in [/home/dev/app], the file arrives at
    [/home/dev/app/.cursor/rules.mdc] with the same content; the success
    block names the output directory by its absolute path, and no printed
    line contains [./.cursor]. *)
Theorem fastify_scenario_prints_absolute_path content :
  let w := Scenario.boot
             (Scenario.one_template "cursor" "backend" "fastify"
                (Dir [("rules.mdc", File content)]))
             (Dir []) Scenario.enter in
  let w' := fst (run (generateTemplate Scenario.generator
                        "cursor" "backend" "fastify") w) in
  stat ["home"; "dev"; "app"; ".cursor"; "rules.mdc"] (disk w')
    = Some (File content) /\
  console w' =
    [ Log Green "✅ Successfully generated cursor template for fastify!";
      Log Gray "📁 Files created in: /home/dev/app/.cursor" ] /\
  existsb (fun e => match e with
                    | Log _ text => includes text "./.cursor"
                    | _ => false
                    end) (console w') = false.
Proof. cbv zeta. repeat split. Qed.

(** ** Directory entries *)

Section Entries.
Implicit Types (k : string) (v : node) (es : entries_t).

Lemma get_set_same k v es : get k (set k v es) = Some v.
Proof.
  induction es as [| [k' v'] es IH]; simpl.
  - unfold get; simpl. now rewrite String.eqb_refl.
  - destruct (String.eqb k k') eqn:E; unfold get in *; simpl.
    + now rewrite String.eqb_refl.
    + now rewrite E.
Qed.

Lemma get_set_other k k' v es : k <> k' -> get k' (set k v es) = get k' es.
Proof.
  intros N. induction es as [| [k0 v0] es IH]; unfold get in *; simpl.
  - destruct (String.eqb_spec k' k); [congruence | reflexivity].
  - destruct (String.eqb_spec k k0) as [-> | N0]; simpl.
    + destruct (String.eqb_spec k' k0); [congruence | reflexivity].
    + destruct (String.eqb k' k0); [reflexivity | exact IH].
Qed.

Lemma set_get_same k v es : get k es = Some v -> set k v es = es.
Proof.
  induction es as [| [k0 v0] es IH]; unfold get in *; simpl.
  - discriminate.
  - destruct (String.eqb_spec k k0) as [-> | N0].
    + now intros [= ->].
    + intros H. now rewrite IH.
Qed.

Lemma set_set_same k v v' es : set k v (set k v' es) = set k v es.
Proof.
  induction es as [| [k0 v0] es IH]; simpl.
  - now rewrite String.eqb_refl.
  - destruct (String.eqb k k0) eqn:E; simpl.
    + now rewrite String.eqb_refl.
    + now rewrite E, IH.
Qed.

Lemma get_del_same k es : get k (del k es) = None.
Proof.
  induction es as [| [k0 v0] es IH]; unfold get in *; simpl.
  - reflexivity.
  - destruct (String.eqb k k0) eqn:E; simpl; [exact IH | now rewrite E].
Qed.

Lemma get_del_other k k' es : k <> k' -> get k' (del k es) = get k' es.
Proof.
  intros N. induction es as [| [k0 v0] es IH]; unfold get in *; simpl.
  - reflexivity.
  - destruct (String.eqb_spec k k0) as [-> | N0]; simpl.
    + destruct (String.eqb_spec k' k0); [congruence | exact IH].
    + destruct (String.eqb k' k0); [reflexivity | exact IH].
Qed.


Lemma get_None_not_in k es : get k es = None <-> ~ In k (map fst es).
Proof.
  induction es as [| [k0 v0] es IH]; unfold get in *; simpl.
  - tauto.
  - destruct (String.eqb_spec k k0) as [-> | N0].
    + split; [discriminate | tauto].
    + rewrite IH. split; [intros H [E | I]; [congruence | tauto] | tauto].
Qed.

Lemma mem_In k (l : list string) : mem k l = true <-> In k l.
Proof.
  unfold mem. rewrite existsb_exists. split.
  - intros (x & I & E). apply String.eqb_eq in E. now subst.
  - intros I. exists k. split; [exact I | apply String.eqb_refl].
Qed.

Lemma nodupb_NoDup (l : list string) : nodupb l = true <-> NoDup l.
Proof.
  induction l as [| k l IH]; simpl.
  - split; [constructor | reflexivity].
  - rewrite andb_true_iff, negb_true_iff, IH. split.
    + intros [M N]. constructor; [| exact N].
      intros I. apply mem_In in I. congruence.
    + intros N. inversion N; subst. split; [| assumption].
      destruct (mem k l) eqn:E; [| reflexivity].
      apply mem_In in E. contradiction.
Qed.
End Entries.

(** ** Paths in a tree *)

Local Open Scope list_scope.

Section Trees.
Implicit Types (p q r : path) (n x v : node).

Lemma stat_app p q n :
  stat (p ++ q) n =
  match stat p n with Some x => stat q x | None => None end.
Proof.
  revert n. induction p as [| seg p IH]; intros n; simpl.
  - reflexivity.
  - destruct n as [c | es]; [reflexivity |].
    destruct (get seg es); [apply IH | reflexivity].
Qed.

(** Writing back what is there changes nothing. *)
Lemma put_stat_same p n x : stat p n = Some x -> put p x n = n.
Proof.
  revert n. induction p as [| seg p IH]; intros n; simpl.
  - now intros [= ->].
  - destruct n as [c | es]; [discriminate |].
    destruct (get seg es) as [ch |] eqn:G; [| discriminate].
    intros H. rewrite (IH _ H). now rewrite (set_get_same _ _ _ G).
Qed.

Lemma put_put p v v' n : put p v (put p v' n) = put p v n.
Proof.
  revert n. induction p as [| seg p IH]; intros n; simpl.
  - reflexivity.
  - destruct n as [c | es]; [reflexivity |]. simpl.
    rewrite get_set_same, IH, set_set_same. reflexivity.
Qed.

(** Below a path that exists, a write is a write inside what is there. *)
Lemma put_app p r v n x :
  stat p n = Some x -> put (p ++ r) v n = put p (put r v x) n.
Proof.
  revert n. induction p as [| seg p IH]; intros n; simpl.
  - now intros [= ->].
  - destruct n as [c | es]; [discriminate |].
    destruct (get seg es) as [ch |] eqn:G; [| discriminate].
    intros H. now rewrite (IH _ H).
Qed.

Lemma stat_put_below p q v n x :
  stat p n = Some x -> stat (p ++ q) (put p v n) = stat q v.
Proof.
  revert n. induction p as [| seg p IH]; intros n; simpl.
  - reflexivity.
  - destruct n as [c | es]; [discriminate |].
    destruct (get seg es) as [ch |] eqn:G; [| discriminate].
    intros H. rewrite get_set_same. now apply IH.
Qed.

Lemma stat_put_same p v n x : stat p n = Some x -> stat p (put p v n) = Some v.
Proof.
  intros H. rewrite <- (app_nil_r p) at 1.
  now rewrite (stat_put_below _ _ _ _ _ H).
Qed.

Lemma remove_app p r n x :
  stat p n = Some x -> r <> [] -> remove (p ++ r) n = put p (remove r x) n.
Proof.
  revert n. induction p as [| seg p IH]; intros n; simpl.
  - now intros [= ->].
  - destruct n as [c | es]; [discriminate |].
    destruct (get seg es) as [ch |] eqn:G; [| discriminate].
    intros H R. rewrite <- (IH _ H R).
    destruct (p ++ r) eqn:E; [| reflexivity].
    apply app_eq_nil in E. tauto.
Qed.

Lemma mkdirp_app p r n x :
  stat p n = Some x ->
  mkdirp (p ++ r) n =
  match mkdirp r x with Some x' => Some (put p x' n) | None => None end.
Proof.
  revert n. induction p as [| seg p IH]; intros n; simpl.
  - intros [= ->]. destruct (mkdirp r x); reflexivity.
  - destruct n as [c | es]; [discriminate |].
    destruct (get seg es) as [ch |] eqn:G; [| discriminate].
    intros H. rewrite (IH _ H). destruct (mkdirp r x); reflexivity.
Qed.

(** [mkdir -p] of a directory that exists changes nothing. *)
Lemma mkdirp_existing p n es :
  stat p n = Some (Dir es) -> mkdirp p n = Some n.
Proof.
  intros H. rewrite <- (app_nil_r p), (mkdirp_app _ _ _ _ H). simpl.
  now rewrite (put_stat_same _ _ _ H).
Qed.

(** After [mkdir -p], the path is a directory. *)
Lemma mkdirp_is_dir p n n' :
  mkdirp p n = Some n' -> exists es, stat p n' = Some (Dir es).
Proof.
  revert n n'. induction p as [| seg p IH]; intros n n'.
  - destruct n as [c | es]; simpl; [discriminate |].
    intros [= <-]. now exists es.
  - destruct n as [c | es]; simpl; [discriminate |].
    destruct (mkdirp p _) as [c' |] eqn:E; [| discriminate].
    intros [= <-]. simpl. rewrite get_set_same. exact (IH _ _ E).
Qed.

(** The parent of something that exists is a directory. *)
Lemma stat_parent p seg n x :
  stat (p ++ [seg]) n = Some x -> exists es, stat p n = Some (Dir es).
Proof.
  rewrite stat_app. destruct (stat p n) as [[c | es] |]; simpl; try discriminate.
  intros _. now exists es.
Qed.
End Trees.

(** ** The recursive copy *)

(** Induction on trees, with the property known of every entry of a
    directory. *)
Lemma node_induction (P : node -> Prop) :
  (forall c, P (File c)) ->
  (forall es, Forall (fun kv => P (snd kv)) es -> P (Dir es)) ->
  forall n, P n.
Proof.
  intros HF HD. fix IH 1. intros [c | es].
  - apply HF.
  - apply HD. induction es as [| [k v] es IHes]; constructor.
    + apply IH.
    + exact IHes.
Qed.

Section Merge.
Implicit Types (sp dp q : path) (s n v : node) (es ds : entries_t).

Lemma mergeNode_dir sp dp es d :
  mergeNode sp dp (Dir es) d =
  match d with
  | Some (File c) => (File c, Some (OverwriteNonDir dp sp))
  | _ =>
      let (ds', e) :=
        mergeItems sp dp es (match d with Some (Dir ds) => ds | _ => [] end) in
      (Dir ds', e)
  end.
Proof. destruct d as [[c | ds] |]; reflexivity. Qed.

Lemma mergeItems_cons sp dp k v es ds :
  mergeItems sp dp ((k, v) :: es) ds =
  match mergeNode (sp ++ [k]) (dp ++ [k]) v (get k ds) with
  | (n, None) => mergeItems sp dp es (set k n ds)
  | (n, Some e) => (set k n ds, Some e)
  end.
Proof. reflexivity. Qed.

(** The copy leaves alone the names the source directory does not have. *)
Lemma mergeItems_get_other sp dp es : forall ds k,
  get k es = None -> get k (fst (mergeItems sp dp es ds)) = get k ds.
Proof.
  induction es as [| [k0 v0] es IH]; intros ds k H.
  - reflexivity.
  - rewrite mergeItems_cons.
    unfold get in H; simpl in H.
    destruct (String.eqb_spec k k0) as [E | N]; [discriminate |].
    destruct (mergeNode (sp ++ [k0]) (dp ++ [k0]) v0 (get k0 ds))
      as [n [e |]]; simpl.
    + apply get_set_other. congruence.
    + rewrite (IH _ _ H). apply get_set_other. congruence.
Qed.

Lemma get_In k v es : get k es = Some v -> In (k, v) es.
Proof.
  induction es as [| [k0 v0] es IH]; unfold get in *; simpl.
  - discriminate.
  - destruct (String.eqb_spec k k0) as [-> | N].
    + intros [= ->]. now left.
    + intros H. right. now apply IH.
Qed.

Lemma In_get k v es : NoDup (map fst es) -> In (k, v) es -> get k es = Some v.
Proof.
  induction es as [| [k0 v0] es IH]; simpl; intros ND I.
  - contradiction.
  - inversion ND as [| ? ? NI ND']; subst. unfold get in *; simpl.
    destruct I as [[= -> ->] | I].
    + now rewrite String.eqb_refl.
    + destruct (String.eqb_spec k k0) as [-> | N]; [| now apply IH].
      exfalso. apply NI. change k0 with (fst (k0, v)). now apply in_map.
Qed.

Lemma wf_dir es :
  wf (Dir es) = true ->
  NoDup (map fst es) /\ Forall (fun kv => wf (snd kv) = true) es.
Proof.
  simpl. rewrite andb_true_iff, nodupb_NoDup, forallb_forall, Forall_forall.
  tauto.
Qed.

Lemma wf_entry es k v : wf (Dir es) = true -> get k es = Some v -> wf v = true.
Proof.
  intros W G. apply wf_dir in W. destruct W as [_ F].
  rewrite Forall_forall in F. exact (F _ (get_In _ _ _ G)).
Qed.

Lemma wf_stat q : forall n x, wf n = true -> stat q n = Some x -> wf x = true.
Proof.
  induction q as [| seg q IH]; intros n x W; simpl.
  - now intros [= <-].
  - destruct n as [c | es]; [discriminate |].
    destruct (get seg es) as [ch |] eqn:G; [| discriminate].
    apply IH. exact (wf_entry _ _ _ W G).
Qed.

(** What a successful loop leaves in the destination directory: under
    every name of the source, the copy of that entry onto what was
    there. *)
Lemma mergeItems_ok_entry sp dp es : forall ds ds',
  NoDup (map fst es) ->
  mergeItems sp dp es ds = (ds', None) ->
  forall k v, get k es = Some v ->
  exists n, mergeNode (sp ++ [k]) (dp ++ [k]) v (get k ds) = (n, None)
            /\ get k ds' = Some n.
Proof.
  induction es as [| [k0 v0] es IH]; intros ds ds' ND H k v G.
  - discriminate.
  - rewrite mergeItems_cons in H. inversion ND as [| ? ? NI ND']; subst.
    destruct (mergeNode _ _ v0 (get k0 ds)) as [n0 [e |]] eqn:E0;
      [discriminate |].
    unfold get in G; simpl in G.
    destruct (String.eqb_spec k k0) as [-> | N].
    + injection G as <-. exists n0. split; [exact E0 |].
      change ds' with (fst (ds', @None fserror)). rewrite <- H.
      rewrite mergeItems_get_other.
      * apply get_set_same.
      * now apply get_None_not_in.
    + destruct (IH _ _ ND' H _ _ G) as (n & En & Gn).
      exists n. split; [| exact Gn].
      rewrite get_set_other in En by congruence. exact En.
Qed.

(** A successful copy puts every file of the source at the same place
    in the result, with the same bytes. *)
Lemma mergeNode_keeps_files : forall s,
  wf s = true ->
  forall sp dp d n, mergeNode sp dp s d = (n, None) ->
  forall q c, stat q s = Some (File c) -> stat q n = Some (File c).
Proof.
  induction s as [c0 | es IH] using node_induction; intros W sp dp d n H q c S.
  - destruct q; [| discriminate]. simpl in S. injection S as ->.
    simpl in H. destruct d as [[? | ?] |]; now inversion H.
  - destruct q as [| k q]; [discriminate |]. simpl in S.
    destruct (get k es) as [v |] eqn:G; [| discriminate].
    rewrite mergeNode_dir in H.
    assert (exists ds0 ds', mergeItems sp dp es ds0 = (ds', None) /\ n = Dir ds')
      as (ds0 & ds' & HI & ->).
    { destruct d as [[? | ds] |]; [discriminate | |];
        match type of H with
        | (let (_, _) := mergeItems ?a ?b ?c ?d in _) = _ =>
            destruct (mergeItems a b c d) as [ds' e] eqn:HI
        end; inversion H; subst; eauto. }
    destruct (wf_dir _ W) as [ND WF].
    destruct (mergeItems_ok_entry _ _ _ _ _ ND HI _ _ G) as (nk & Ek & Gk).
    simpl. rewrite Gk.
    rewrite Forall_forall in IH, WF.
    apply (IH _ (get_In _ _ _ G) (WF _ (get_In _ _ _ G)) _ _ _ _ Ek _ _ S).
Qed.



(** Where the source has nothing, a successful copy leaves what the
    destination had. *)
Lemma mergeNode_frame : forall s,
  wf s = true ->
  forall sp dp d n, mergeNode sp dp s d = (n, None) ->
  forall q, stat q s = None ->
  stat q n = match d with Some x => stat q x | None => None end.
Proof.
  induction s as [c0 | es IH] using node_induction; intros W sp dp d n H q S.
  - destruct q as [| k q]; [discriminate |].
    simpl in H. destruct d as [[? | ?] |]; inversion H; reflexivity.
  - destruct q as [| k q]; [discriminate |].
    rewrite mergeNode_dir in H.
    assert (exists ds', mergeItems sp dp es
               (match d with Some (Dir ds) => ds | _ => [] end) = (ds', None)
             /\ n = Dir ds' /\ (forall c, d <> Some (File c)))
      as (ds' & HI & -> & ND0).
    { destruct d as [[? | ds] |]; [discriminate | |];
        match type of H with
        | (let (_, _) := mergeItems ?a ?b ?c ?d in _) = _ =>
            destruct (mergeItems a b c d) as [ds' e] eqn:HI
        end; inversion H; subst; eexists; repeat split; congruence. }
    destruct (wf_dir _ W) as [ND WF].
    assert (R : match d with Some x => stat (k :: q) x | None => None end
                = match get k (match d with Some (Dir ds) => ds | _ => [] end)
                  with Some x => stat q x | None => None end).
    { destruct d as [[c | ds] |]; [now elim (ND0 c) | reflexivity | reflexivity]. }
    rewrite R. simpl. simpl in S.
    destruct (get k es) as [v |] eqn:G.
    + destruct (mergeItems_ok_entry _ _ _ _ _ ND HI _ _ G) as (nk & Ek & Gk).
      rewrite Gk. rewrite Forall_forall in IH, WF.
      exact (IH _ (get_In _ _ _ G) (WF _ (get_In _ _ _ G)) _ _ _ _ Ek _ S).
    + pose proof (mergeItems_get_other sp dp es
                    (match d with Some (Dir ds) => ds | _ => [] end) k G) as F.
      rewrite HI in F. simpl in F. now rewrite F.
Qed.
End Merge.

(** ** The file operations, step by step *)

(** The file operations settle: each returns or throws, and none ends the
    process. *)
Lemma ensureDir_settles p w w' : ensureDir p w <> (w', Killed).
Proof.
  unfold ensureDir, fs_throw, throw.
  destruct (mkdirp p (disk w)); [| destruct (stat p (disk w))]; discriminate.
Qed.

Lemma copy_settles src dest w w' : copy src dest w <> (w', Killed).
Proof.
  unfold copy, fs_throw, throw.
  destruct (checkPaths "copy" src dest (disk w)) as [e | s]; [discriminate |].
  destruct (mkdirp (dirname_of dest) (disk w)) as [d1 |]; [| discriminate].
  destruct (mergeNode src dest s (stat dest d1)) as [n [e |]]; discriminate.
Qed.

Lemma move_overwrite_settles src dest w w' :
  move_overwrite src dest w <> (w', Killed).
Proof.
  unfold move_overwrite, fs_throw, throw.
  destruct (checkPaths "move" src dest (disk w)) as [e | s]; [discriminate |].
  destruct (mkdirp (dirname_of dest) (disk w)) as [d1 |]; discriminate.
Qed.

Lemma legacy_migration_settles ai out w w' :
  Scenario.legacy_migration ai out w <> (w', Killed).
Proof.
  unfold Scenario.legacy_migration, bind, pathExists, ret.
  destruct (String.eqb ai "cursor"); [| discriminate].
  destruct (stat _ (disk w)); [| discriminate].
  destruct (ensureDir _ w) as [w1 [[] | e |]] eqn:E1.
  - apply move_overwrite_settles.
  - discriminate.
  - now apply ensureDir_settles in E1.
Qed.

Ltac settled E :=
  exfalso; revert E;
  first [ apply ensureDir_settles | apply copy_settles
        | apply legacy_migration_settles | apply move_overwrite_settles ].

Section Steps.
Implicit Types (w : world) (p src dest out : path).

(** The file operations change the disk and nothing else. *)
Lemma ensureDir_world p w w' r :
  ensureDir p w = (w', r) -> w' = with_disk (disk w') w.
Proof.
  unfold ensureDir, fs_throw, throw.
  destruct (mkdirp p (disk w)); [| destruct (stat p (disk w))];
    intros [= <- _]; destruct w; reflexivity.
Qed.

Lemma copy_world src dest w w' r :
  copy src dest w = (w', r) -> w' = with_disk (disk w') w.
Proof.
  unfold copy, fs_throw, throw.
  destruct (checkPaths "copy" src dest (disk w)) as [e | s].
  - intros [= <- _]; destruct w; reflexivity.
  - destruct (mkdirp (dirname_of dest) (disk w)) as [d1 |].
    + destruct (mergeNode src dest s (stat dest d1)) as [n [e |]];
        intros [= <- _]; destruct w; reflexivity.
    + intros [= <- _]; destruct w; reflexivity.
Qed.

Lemma move_overwrite_world src dest w w' r :
  move_overwrite src dest w = (w', r) -> w' = with_disk (disk w') w.
Proof.
  unfold move_overwrite, fs_throw, throw.
  destruct (checkPaths "move" src dest (disk w)) as [e | s].
  - intros [= <- _]; destruct w; reflexivity.
  - destruct (mkdirp (dirname_of dest) (disk w)) as [d1 |];
      intros [= <- _]; destruct w; reflexivity.
Qed.

Lemma legacy_migration_world ai out w w' r :
  Scenario.legacy_migration ai out w = (w', r) -> w' = with_disk (disk w') w.
Proof.
  unfold Scenario.legacy_migration, bind, pathExists, ret.
  destruct (String.eqb ai "cursor").
  - destruct (stat _ (disk w)).
    + destruct (ensureDir _ w) as [w1 [[] | e |]] eqn:E1.
      * destruct (move_overwrite _ _ w1) as [w2 r2] eqn:E2.
        intros [= <- _].
        apply ensureDir_world in E1. apply move_overwrite_world in E2.
        rewrite E2, E1. destruct w; reflexivity.
      * intros [= <- _]. apply ensureDir_world in E1.
        rewrite E1 at 1. destruct w; reflexivity.
      * intros [= <- _]. apply ensureDir_world in E1.
        rewrite E1 at 1. destruct w; reflexivity.
    + intros [= <- _]; destruct w; reflexivity.
  - intros [= <- _]; destruct w; reflexivity.
Qed.

Lemma with_disk_same w w' :
  w' = with_disk (disk w') w -> console w' = console w /\ cwd w' = cwd w.
Proof. intros ->. split; reflexivity. Qed.

(** [generateTemplate], step by step. *)
Lemma generateTemplate_steps this ai category framework w :
  run (generateTemplate this ai category framework) w =
  let tp := templatePath_of this ai category framework in
  let out := outputDir_of (cwd w) ai in
  match stat tp (disk w) with
  | None =>
      (emit (Log Red ("❌ Template not found for " ++ ai ++ "/" ++ category
                        ++ "/" ++ framework)%string) w, Returned tt)
  | Some _ =>
      match ensureDir out w with
      | (w1, Thrown e) => (w1, Thrown e)
      | (w1, Killed) => (w1, Killed)
      | (w1, Returned _) =>
          match copy tp out w1 with
          | (w2, Thrown e) =>
              (emit (Log Red ("❌ Error generating template: "
                                ++ errorMessage_of e)%string) w2, Returned tt)
          | (w2, Killed) => (w2, Killed)
          | (w2, Returned _) =>
              match Scenario.legacy_migration ai out w2 with
              | (w3, Thrown e) =>
                  (emit (Log Red ("❌ Error generating template: "
                                    ++ errorMessage_of e)%string) w3,
                   Returned tt)
              | (w3, Killed) => (w3, Killed)
              | (w3, Returned _) =>
                  (emit (Log Gray ("📁 Files created in: "
                                     ++ path_to_string out)%string)
                     (emit (Log Green ("✅ Successfully generated " ++ ai
                                         ++ " template for " ++ framework
                                         ++ "!")%string) w3),
                   Returned tt)
              end
          end
      end
  end.
Proof.
  change (generateTemplate this ai category framework) with
    (let templatePath := templatePath_of this ai category framework in
     found <- pathExists templatePath ;;
     if negb found then
       console_log Red
         ("❌ Template not found for " ++ ai ++ "/" ++ category ++ "/"
            ++ framework)%string
     else
       here <- process_cwd ;;
       let outputDir := outputDir_of here ai in
       ensureDir outputDir ;;;
       try_catch
         (copy templatePath outputDir ;;;
          Scenario.legacy_migration ai outputDir ;;;
          console_log Green
            ("✅ Successfully generated " ++ ai ++ " template for "
               ++ framework ++ "!")%string ;;;
          console_log Gray
            ("📁 Files created in: " ++ path_to_string outputDir)%string)
         (fun error =>
            console_log Red
              ("❌ Error generating template: "
                 ++ errorMessage_of error)%string))%prog.
  unfold run, bind, pathExists, process_cwd, try_catch.
  cbv zeta.
  destruct (stat _ (disk w)); [| reflexivity].
  cbn [negb].
  destruct (ensureDir _ w) as [w1 [[] | e1 |]]; [| reflexivity | reflexivity].
  destruct (copy _ _ w1) as [w2 [[] | e2 |]]; [| reflexivity | reflexivity].
  destruct (Scenario.legacy_migration _ _ w2) as [w3 [[] | e3 |]]; reflexivity.
Qed.

(** A run that ends with the success block went through every step. *)
Lemma generateTemplate_success_steps this ai category framework w :
  let tp := templatePath_of this ai category framework in
  let out := outputDir_of (cwd w) ai in
  let w' := fst (run (generateTemplate this ai category framework) w) in
  console w' = console w ++ Scenario.success_block ai framework out ->
  exists w1 w2 w3,
    stat tp (disk w) <> None /\
    ensureDir out w = (w1, Returned tt) /\
    copy tp out w1 = (w2, Returned tt) /\
    Scenario.legacy_migration ai out w2 = (w3, Returned tt) /\
    disk w' = disk w3.
Proof.
  intros tp out w'. subst w'. rewrite generateTemplate_steps. cbv zeta.
  fold tp. fold out.
  destruct (stat tp (disk w)) eqn:S.
  2:{ simpl. intros H. apply app_inv_head in H. discriminate. }
  destruct (ensureDir out w) as [w1 [[] | e1 |]] eqn:E1; [| | settled E1].
  2:{ simpl. intros H. apply ensureDir_world, with_disk_same in E1.
      destruct E1 as [C _]. rewrite C, <- (app_nil_r (console w)) in H at 1.
      apply app_inv_head in H. discriminate. }
  pose proof (with_disk_same _ _ (ensureDir_world _ _ _ _ E1)) as [C1 _].
  destruct (copy tp out w1) as [w2 [[] | e2 |]] eqn:E2; [| | settled E2].
  2:{ simpl. intros H. apply copy_world, with_disk_same in E2.
      destruct E2 as [C2 _]. rewrite C2, C1 in H.
      apply app_inv_head in H. discriminate. }
  pose proof (with_disk_same _ _ (copy_world _ _ _ _ _ E2)) as [C2 _].
  destruct (Scenario.legacy_migration ai out w2) as [w3 [[] | e3 |]] eqn:E3;
    [| | settled E3].
  2:{ simpl. intros H. apply legacy_migration_world, with_disk_same in E3.
      destruct E3 as [C3 _]. rewrite C3, C2, C1 in H.
      apply app_inv_head in H. discriminate. }
  intros _. exists w1, w2, w3. repeat split; congruence.
Qed.

(** The other way round: when every step returns, the run ends with the
    success block. *)
Lemma generateTemplate_steps_success this ai category framework w w1 w2 w3 :
  let tp := templatePath_of this ai category framework in
  let out := outputDir_of (cwd w) ai in
  stat tp (disk w) <> None ->
  ensureDir out w = (w1, Returned tt) ->
  copy tp out w1 = (w2, Returned tt) ->
  Scenario.legacy_migration ai out w2 = (w3, Returned tt) ->
  let w' := fst (run (generateTemplate this ai category framework) w) in
  disk w' = disk w3 /\
  console w' = console w ++ Scenario.success_block ai framework out /\
  snd (run (generateTemplate this ai category framework) w) = Returned tt.
Proof.
  intros tp out S E1 E2 E3 w'. subst w'. rewrite generateTemplate_steps.
  cbv zeta. fold tp. fold out.
  destruct (stat tp (disk w)); [| congruence].
  rewrite E1, E2, E3. simpl.
  pose proof (with_disk_same _ _ (ensureDir_world _ _ _ _ E1)) as [C1 _].
  pose proof (with_disk_same _ _ (copy_world _ _ _ _ _ E2)) as [C2 _].
  pose proof (with_disk_same _ _ (legacy_migration_world _ _ _ _ _ E3)) as [C3 _].
  rewrite C3, C2, C1, <- app_assoc. repeat split.
Qed.
End Steps.

(** ** The legacy migration *)

Section Migration.
Implicit Types (w : world) (p q out : path) (m : entries_t).

Lemma path_eqb_app p q (r : path) : path_eqb (p ++ q) (p ++ r) = path_eqb q r.
Proof.
  induction p as [| a p IH]; simpl; [reflexivity |].
  now rewrite String.eqb_refl.
Qed.

Lemma is_prefix_app p q (r : path) : is_prefix (p ++ q) (p ++ r) = is_prefix q r.
Proof.
  induction p as [| a p IH]; simpl; [reflexivity |].
  now rewrite String.eqb_refl.
Qed.

Lemma path_eqb_is_prefix p : forall q, path_eqb p q = true -> is_prefix p q = true.
Proof.
  induction p as [| a p IH]; intros [| b q]; simpl; try easy.
  rewrite !andb_true_iff. intros [E H]. split; [exact E | now apply IH].
Qed.

Lemma mkdirp_dirname p n es :
  stat p n = Some (Dir es) -> mkdirp (dirname_of p) n = Some n.
Proof.
  unfold dirname_of.
  induction p as [| seg p' _] using rev_ind; intros H.
  - simpl in *. now injection H as ->.
  - rewrite removelast_last.
    destruct (stat_parent _ _ _ _ H) as (es' & H').
    exact (mkdirp_existing _ _ _ H').
Qed.

Lemma ensureDir_returned p w w1 :
  ensureDir p w = (w1, Returned tt) ->
  mkdirp p (disk w) = Some (disk w1) /\ w1 = with_disk (disk w1) w.
Proof.
  intros H. split; [| exact (ensureDir_world _ _ _ _ H)].
  unfold ensureDir, fs_throw, throw in H.
  destruct (mkdirp p (disk w)); [| destruct (stat p (disk w))];
    inversion H; reflexivity.
Qed.

Lemma ensureDir_existing p w es :
  stat p (disk w) = Some (Dir es) -> ensureDir p w = (w, Returned tt).
Proof.
  intros H. unfold ensureDir. rewrite (mkdirp_existing _ _ _ H).
  destruct w; reflexivity.
Qed.

(** The copy of a directory onto a directory. *)
Lemma copy_dir_onto_dir src out w es ds :
  stat src (disk w) = Some (Dir es) ->
  stat out (disk w) = Some (Dir ds) ->
  is_prefix src out = false ->
  copy src out w =
  (with_disk (put out (Dir (fst (mergeItems src out es ds))) (disk w)) w,
   match snd (mergeItems src out es ds) with
   | None => Returned tt
   | Some e => Thrown (JsError (fserror_message e) false)
   end).
Proof.
  intros S D P. unfold copy, checkPaths. rewrite S, D. simpl.
  destruct (path_eqb src out) eqn:E.
  { apply path_eqb_is_prefix in E. congruence. }
  rewrite P, (mkdirp_dirname _ _ _ D), D, mergeNode_dir.
  change (copyItems _ es ds) with (mergeItems src out es ds).
  destruct (mergeItems src out es ds) as [m [e |]]; reflexivity.
Qed.

Lemma copy_returned src out w w2 ds :
  stat out (disk w) = Some (Dir ds) ->
  copy src out w = (w2, Returned tt) ->
  exists es m,
    stat src (disk w) = Some (Dir es) /\
    is_prefix src out = false /\
    mergeItems src out es ds = (m, None) /\
    disk w2 = put out (Dir m) (disk w).
Proof.
  intros D H.
  destruct (stat src (disk w)) as [[c | es] |] eqn:S.
  - unfold copy, checkPaths, fs_throw, throw in H. rewrite S, D in H.
    simpl in H. destruct (path_eqb src out); discriminate.
  - destruct (is_prefix src out) eqn:P.
    + unfold copy, checkPaths, fs_throw, throw in H. rewrite S, D, P in H.
      simpl in H. destruct (path_eqb src out); discriminate.
    + rewrite (copy_dir_onto_dir _ _ _ _ _ S D P) in H.
      destruct (mergeItems src out es ds) as [m [e |]] eqn:E;
        simpl in H; [discriminate |].
      injection H as <-. exists es, m. repeat split; auto.
  - unfold copy, checkPaths, fs_throw, throw in H. rewrite S in H.
    discriminate.
Qed.

(** The migration when the output directory, whose entries are [m], has
    no [.cursorrules], or the tool is not Cursor: nothing happens. *)
Lemma legacy_migration_not_cursor ai out w :
  String.eqb ai "cursor" = false ->
  Scenario.legacy_migration ai out w = (w, Returned tt).
Proof. unfold Scenario.legacy_migration. now intros ->. Qed.

Lemma legacy_migration_nothing_to_move out w m :
  stat out (disk w) = Some (Dir m) ->
  get ".cursorrules" m = None ->
  Scenario.legacy_migration "cursor" out w = (w, Returned tt).
Proof.
  intros D G. unfold Scenario.legacy_migration, bind, pathExists. simpl.
  change (path_join out [".cursorrules"]) with (out ++ [".cursorrules"]).
  rewrite stat_app, D. simpl. now rewrite G.
Qed.

Lemma stat_cons k q es :
  stat (k :: q) (Dir es) =
  match get k es with Some c => stat q c | None => None end.
Proof. reflexivity. Qed.

Lemma put_cons k q v es :
  put (k :: q) v (Dir es) =
  Dir (set k (put q v (match get k es with Some c => c | None => Dir [] end)) es).
Proof. reflexivity. Qed.

Lemma remove_last k es : remove [k] (Dir es) = Dir (del k es).
Proof. reflexivity. Qed.

Lemma remove_cons k k' q es :
  remove (k :: k' :: q) (Dir es) =
  match get k es with
  | Some c => Dir (set k (remove (k' :: q) c) es)
  | None => Dir es
  end.
Proof. reflexivity. Qed.

Lemma rules_is_not_cursorrules : "rules" <> ".cursorrules".
Proof. discriminate. Qed.

(** The move of [.cursorrules] to [rules/rules.mdc], the [rules]
    directory being there with entries [r]. *)
Lemma move_into_rules out w m legacy r :
  stat out (disk w) = Some (Dir m) ->
  get ".cursorrules" m = Some legacy ->
  let w1 := with_disk (put out (Dir (set "rules" (Dir r) m)) (disk w)) w in
  let old := out ++ [".cursorrules"] in
  let new := (out ++ ["rules"]) ++ ["rules.mdc"] in
  move_overwrite old new w1 =
  if Scenario.same_kind legacy (get "rules.mdc" r)
  then (with_disk (put out (Dir (Scenario.migrated m legacy r)) (disk w)) w,
        Returned tt)
  else (w1, Thrown (JsError
                      (fserror_message
                         (if isDirectory legacy
                          then OverwriteNonDir new old
                          else OverwriteDir new old)) false)).
Proof.
  intros D G w1 old new.
  set (m3 := set "rules" (Dir r) m).
  assert (D3 : stat out (disk w1) = Some (Dir m3))
    by exact (stat_put_same _ _ _ _ D).
  assert (Sold : stat old (disk w1) = Some legacy).
  { unfold old. rewrite stat_app, D3, stat_cons.
    unfold m3. rewrite get_set_other by exact rules_is_not_cursorrules.
    now rewrite G. }
  assert (Srules : stat (out ++ ["rules"]) (disk w1) = Some (Dir r)).
  { rewrite stat_app, D3, stat_cons. unfold m3. now rewrite get_set_same. }
  assert (Snew : stat new (disk w1) = get "rules.mdc" r).
  { unfold new. rewrite stat_app, Srules, stat_cons.
    destruct (get "rules.mdc" r); reflexivity. }
  assert (Pne : path_eqb old new = false).
  { unfold old, new. rewrite <- app_assoc, path_eqb_app. reflexivity. }
  assert (Ppre : is_prefix old new = false).
  { unfold old, new. rewrite <- app_assoc, is_prefix_app. reflexivity. }
  unfold move_overwrite, checkPaths. rewrite Sold, Snew, Pne, Ppre, andb_false_r.
  unfold Scenario.same_kind.
  assert (Final :
    match mkdirp (dirname_of new) (disk w1) with
    | Some d1 =>
        (with_disk (put new legacy (remove old (remove new d1))) w1, Returned tt)
    | None => @fs_throw unit (ENOTDIR (dirname_of new)) w1
    end =
    (with_disk (put out (Dir (Scenario.migrated m legacy r)) (disk w)) w,
     Returned tt)).
  { unfold dirname_of, new at 1. rewrite removelast_last.
    rewrite (mkdirp_existing _ _ _ Srules).
    unfold new, old. rewrite <- !app_assoc. cbn [app].
    rewrite (remove_app _ _ _ _ D3) by discriminate.
    rewrite remove_cons. unfold m3 at 1. rewrite get_set_same, remove_last.
    set (m4 := set "rules" (Dir (del "rules.mdc" r)) m3).
    assert (D4 : stat out (put out (Dir m4) (disk w1)) = Some (Dir m4))
      by exact (stat_put_same _ _ _ _ D3).
    rewrite (remove_app _ _ _ _ D4) by discriminate.
    rewrite remove_last, put_put.
    assert (D5 : stat out (put out (Dir (del ".cursorrules" m4)) (disk w1))
                 = Some (Dir (del ".cursorrules" m4)))
      by exact (stat_put_same _ _ _ _ D3).
    rewrite (put_app _ _ _ _ _ D5), put_put, !put_cons.
    rewrite get_del_other by (intro; discriminate).
    unfold m4 at 1. rewrite get_set_same.
    unfold w1. cbn [disk with_disk]. rewrite put_put.
    unfold Scenario.migrated, m4, m3. destruct w; reflexivity. }
  destruct (get "rules.mdc" r) as [d |]; [| exact Final].
  destruct legacy as [c | es], d as [c' | es']; cbn [isDirectory negb andb Bool.eqb];
    try exact Final; reflexivity.
Qed.

(** The migration when there is something at [.cursorrules]. *)
Lemma legacy_migration_moves out w m legacy :
  stat out (disk w) = Some (Dir m) ->
  get ".cursorrules" m = Some legacy ->
  Scenario.legacy_migration "cursor" out w =
  match Scenario.rules_entries m with
  | None =>
      (w, Thrown (JsError (fserror_message (EEXIST (out ++ ["rules"]))) false))
  | Some r =>
      let old := out ++ [".cursorrules"] in
      let new := (out ++ ["rules"]) ++ ["rules.mdc"] in
      if Scenario.same_kind legacy (get "rules.mdc" r)
      then (with_disk (put out (Dir (Scenario.migrated m legacy r)) (disk w)) w,
            Returned tt)
      else (with_disk (put out (Dir (set "rules" (Dir r) m)) (disk w)) w,
            Thrown (JsError
                      (fserror_message
                         (if isDirectory legacy
                          then OverwriteNonDir new old
                          else OverwriteDir new old)) false))
  end.
Proof.
  intros D G. unfold Scenario.legacy_migration, bind, pathExists.
  cbn [String.eqb Ascii.eqb Bool.eqb].
  change (path_join out [".cursorrules"]) with (out ++ [".cursorrules"]).
  change (path_join (path_join out ["rules"]) ["rules.mdc"])
    with ((out ++ ["rules"]) ++ ["rules.mdc"]).
  change (path_join out ["rules"]) with (out ++ ["rules"]).
  rewrite stat_app, D, stat_cons, G. cbn [stat]. cbv beta.
  unfold ensureDir. rewrite (mkdirp_app _ _ _ _ D), stat_app, D, stat_cons.
  unfold Scenario.rules_entries. cbn [mkdirp].
  destruct (get "rules" m) as [[c | r] |] eqn:R.
  - reflexivity.
  - exact (move_into_rules out w m legacy r D G).
  - exact (move_into_rules out w m legacy [] D G).
Qed.
End Migration.

(** ** What [mkdir -p] leaves alone *)

Section Mkdirp.
Implicit Types (p q : path) (n : node).

(** The path is a directory afterwards: the one that was there, or a
    new, empty one. It was no regular file. *)
Lemma mkdirp_result p : forall n n',
  mkdirp p n = Some n' ->
  stat p n' = Some (Dir (match stat p n with Some (Dir es) => es | _ => [] end))
  /\ (forall c, stat p n <> Some (File c)).
Proof.
  induction p as [| a p IH]; intros n n'.
  - destruct n as [c | es]; simpl; [discriminate |].
    intros [= <-]. split; [reflexivity | discriminate].
  - destruct n as [c | es]; cbn [mkdirp]; [discriminate |].
    destruct (mkdirp p _) as [c' |] eqn:E; [| discriminate].
    intros [= <-]. rewrite !stat_cons, get_set_same.
    destruct (IH _ _ E) as [S N].
    destruct (get a es) as [ch |]; [exact (conj S N) |].
    split; [| discriminate].
    rewrite S. destruct p; reflexivity.
Qed.

(** Below the path, nothing changes. *)
Lemma mkdirp_below p : forall q n n',
  mkdirp p n = Some n' -> q <> [] -> stat (p ++ q) n' = stat (p ++ q) n.
Proof.
  induction p as [| a p IH]; intros q n n'.
  - destruct n as [c | es]; simpl; [discriminate |]. now intros [= <-].
  - destruct n as [c | es]; cbn [mkdirp]; [discriminate |].
    destruct (mkdirp p _) as [c' |] eqn:E; [| discriminate].
    intros [= <-] Q. cbn [app]. rewrite !stat_cons, get_set_same.
    rewrite (IH _ _ _ E Q).
    destruct (get a es) as [ch |]; [reflexivity |].
    destruct (p ++ q) eqn:A; [| reflexivity].
    apply app_eq_nil in A. tauto.
Qed.

(** Off the path, nothing changes either. *)
Lemma mkdirp_frame p : forall q n n',
  mkdirp p n = Some n' -> is_prefix q p = false -> stat q n' = stat q n.
Proof.
  induction p as [| a p IH]; intros q n n'.
  - destruct n as [c | es]; simpl; [discriminate |]. now intros [= <-].
  - destruct n as [c | es]; cbn [mkdirp]; [discriminate |].
    destruct (mkdirp p _) as [c' |] eqn:E; [| discriminate].
    intros [= <-] P. destruct q as [| b q]; [discriminate |].
    rewrite !stat_cons. cbn [is_prefix] in P.
    destruct (String.eqb_spec b a) as [-> | N].
    + rewrite get_set_same. cbn [andb] in P. rewrite (IH _ _ _ E P).
      destruct (get a es) as [ch |]; [reflexivity |].
      destruct q; [discriminate | reflexivity].
    + rewrite get_set_other by congruence. reflexivity.
Qed.
End Mkdirp.

Lemma mergeNode_file_ok sp dp c d n :
  mergeNode sp dp (File c) d = (n, None) -> n = File c.
Proof. simpl. destruct d as [[? | ?] |]; now intros [= <-]. Qed.

(** ** Tools other than Cursor *)

(** C7. For a tool other than Cursor there is no migration step: the run
    leaves the disk as the creation of the output directory and the copy
    leave it (and as it was, when there is no template). So, after a
    successful run from a well-formed disk, a
    top-level file [.cursorrules] of the template is at
    [.<tool>/.cursorrules] with its content, and when the template has
    nothing at [rules/rules.mdc], what is at [.<tool>/rules/rules.mdc] is
    what was there before (nothing, if there was nothing). *)
Theorem other_tools_are_not_migrated this ai category framework w :
  let tp := templatePath_of this ai category framework in
  let out := outputDir_of (cwd w) ai in
  let w' := fst (run (generateTemplate this ai category framework) w) in
  ai <> "cursor" ->
  disk w' =
    match stat tp (disk w) with
    | Some _ => disk (fst (run (ensureDir out ;;; copy tp out)%prog w))
    | None => disk w
    end /\
  (forall es,
     wf (disk w) = true ->
     stat tp (disk w) = Some (Dir es) ->
     console w' = console w ++ Scenario.success_block ai framework out ->
     (forall c, get ".cursorrules" es = Some (File c) ->
        stat (out ++ [".cursorrules"]) (disk w') = Some (File c)) /\
     (stat ["rules"; "rules.mdc"] (Dir es) = None ->
        stat (out ++ ["rules"; "rules.mdc"]) (disk w')
        = stat (out ++ ["rules"; "rules.mdc"]) (disk w))).
Proof.
  intros tp out w' Hai. apply String.eqb_neq in Hai.
  split.
  - subst w'. rewrite generateTemplate_steps. cbv zeta. fold tp. fold out.
    destruct (stat tp (disk w)); [| reflexivity]. unfold run, bind.
    destruct (ensureDir out w) as [w1 [[] | e1 |]]; [| reflexivity | reflexivity].
    destruct (copy tp out w1) as [w2 [[] | e2 |]]; [| reflexivity | reflexivity].
    rewrite (legacy_migration_not_cursor _ _ _ Hai). reflexivity.
  - intros es W S Hok.
    destruct (generateTemplate_success_steps this ai category framework w Hok)
      as (w1 & w2 & w3 & _ & E1 & E2 & E3 & Hd).
    fold tp in E2. fold out in E1, E2, E3. fold w' in Hd.
    rewrite (legacy_migration_not_cursor _ _ _ Hai) in E3.
    injection E3 as <-.
    destruct (ensureDir_returned _ _ _ E1) as [Mk _].
    destruct (mkdirp_result _ _ _ Mk) as [D1 _].
    destruct (copy_returned _ _ _ _ _ D1 E2) as (es' & m & S1 & P & Hm & Hd2).
    rewrite (mkdirp_frame _ _ _ _ Mk P), S in S1. injection S1 as <-.
    assert (ND : NoDup (map fst es)).
    { apply wf_dir. exact (wf_stat _ _ _ W S). }
    rewrite Hd, Hd2. split.
    + intros c G. rewrite (stat_put_below _ _ _ _ _ D1), stat_cons.
      destruct (mergeItems_ok_entry _ _ _ _ _ ND Hm _ _ G) as (n & En & ->).
      apply mergeNode_file_ok in En. now subst n.
    + intros N. rewrite (stat_put_below _ _ _ _ _ D1).
      rewrite <- (mkdirp_below _ _ _ _ Mk) by discriminate.
      rewrite (stat_app out), D1.
      set (ds0 := match stat out (disk w) with Some (Dir ds) => ds | _ => [] end)
        in *.
      assert (Hn : mergeNode tp out (Dir es) (Some (Dir ds0)) = (Dir m, None)).
      { rewrite mergeNode_dir, Hm. reflexivity. }
      exact (mergeNode_frame _ (wf_stat _ _ _ W S) _ _ _ _ Hn _ N).
Qed.

Lemma other_tools_are_not_migrated_witness :
  let t := [ (".cursorrules", File "legacy rules");
             ("project_knowledge.md", File "knowledge") ] in
  let w := Scenario.boot
             (Scenario.one_template "claude" "frontend" "react" (Dir t))
             (Dir []) Scenario.enter in
  let w' := fst (run (generateTemplate Scenario.generator
                        "claude" "frontend" "react") w) in
  stat ["home"; "dev"; "app"; ".claude"; ".cursorrules"] (disk w')
    = Some (File "legacy rules") /\
  stat ["home"; "dev"; "app"; ".claude"; "rules"; "rules.mdc"] (disk w') = None.
Proof.
  intros t w w'.
  destruct (other_tools_are_not_migrated Scenario.generator
              "claude" "frontend" "react" w) as [_ H].
  - discriminate.
  - destruct (H t) as [H1 H2]; [reflexivity | reflexivity | reflexivity |].
    split.
    + apply (H1 "legacy rules"). reflexivity.
    + apply H2. reflexivity.
Defined.

(** ** The migration of [.cursorrules] *)

Lemma migrated_has_no_cursorrules m legacy r :
  get ".cursorrules" (Scenario.migrated m legacy r) = None.
Proof.
  unfold Scenario.migrated.
  rewrite get_set_other by discriminate. apply get_del_same.
Qed.

Lemma migrated_has_rules_mdc m legacy r :
  stat ["rules"; "rules.mdc"] (Dir (Scenario.migrated m legacy r)) = Some legacy.
Proof.
  unfold Scenario.migrated. rewrite stat_cons, get_set_same, stat_cons.
  now rewrite get_set_same.
Qed.

(** A migration that returns, with something at [.cursorrules], has moved
    it. *)
Lemma legacy_migration_returned out w w3 m legacy :
  stat out (disk w) = Some (Dir m) ->
  get ".cursorrules" m = Some legacy ->
  Scenario.legacy_migration "cursor" out w = (w3, Returned tt) ->
  exists r,
    Scenario.rules_entries m = Some r /\
    Scenario.same_kind legacy (get "rules.mdc" r) = true /\
    disk w3 = put out (Dir (Scenario.migrated m legacy r)) (disk w).
Proof.
  intros D G H. rewrite (legacy_migration_moves _ _ _ _ D G) in H.
  destruct (Scenario.rules_entries m) as [r |]; [| discriminate].
  cbv zeta in H.
  destruct (Scenario.same_kind legacy (get "rules.mdc" r)) eqn:K;
    [| discriminate].
  injection H as <-. exists r. auto.
Qed.

(** C10. The migration looks at the output directory, not at the
    template: when the template has no top-level [.cursorrules] and
    [.cursor/.cursorrules] was a file before the call, a successful run for
    Cursor has moved that file to [.cursor/rules/rules.mdc]. *)
Theorem preexisting_cursorrules_is_migrated this category framework w es c :
  let tp := templatePath_of this "cursor" category framework in
  let out := outputDir_of (cwd w) "cursor" in
  let w' := fst (run (generateTemplate this "cursor" category framework) w) in
  stat tp (disk w) = Some (Dir es) ->
  get ".cursorrules" es = None ->
  stat (out ++ [".cursorrules"]) (disk w) = Some (File c) ->
  console w' = console w ++ Scenario.success_block "cursor" framework out ->
  stat (out ++ [".cursorrules"]) (disk w') = None /\
  stat (out ++ ["rules"; "rules.mdc"]) (disk w') = Some (File c).
Proof.
  intros tp out w' S N L Hok.
  destruct (generateTemplate_success_steps this "cursor" category framework w Hok)
    as (w1 & w2 & w3 & _ & E1 & E2 & E3 & Hd).
  fold tp in E2. fold out in E1, E2, E3. fold w' in Hd.
  destruct (stat_parent _ _ _ _ L) as (m0 & D0).
  rewrite (ensureDir_existing _ _ _ D0) in E1. injection E1 as <-.
  destruct (copy_returned _ _ _ _ _ D0 E2) as (es' & m & S1 & P & Hm & Hd2).
  rewrite S in S1. injection S1 as <-.
  assert (G : get ".cursorrules" m = Some (File c)).
  { change m with (fst (m, @None fserror)). rewrite <- Hm.
    rewrite (mergeItems_get_other _ _ _ _ _ N).
    rewrite stat_app, D0, stat_cons in L.
    destruct (get ".cursorrules" m0); [exact L | discriminate]. }
  assert (D2 : stat out (disk w2) = Some (Dir m)).
  { rewrite Hd2. exact (stat_put_same _ _ _ _ D0). }
  destruct (legacy_migration_returned _ _ _ _ _ D2 G E3) as (r & _ & _ & Hd3).
  rewrite Hd, Hd3, !(stat_put_below _ _ _ _ _ D2). split.
  - rewrite stat_cons, migrated_has_no_cursorrules. reflexivity.
  - apply migrated_has_rules_mdc.
Qed.

Lemma preexisting_cursorrules_is_migrated_witness :
  let t := [ ("rules", Dir [ ("rules.mdc", File "template rules") ]) ] in
  let w := Scenario.boot
             (Scenario.one_template "cursor" "backend" "nestjs" (Dir t))
             (Dir [ (".cursor", Dir [ (".cursorrules", File "my old rules") ]) ])
             Scenario.enter in
  let w' := fst (run (generateTemplate Scenario.generator
                        "cursor" "backend" "nestjs") w) in
  stat ["home"; "dev"; "app"; ".cursor"; ".cursorrules"] (disk w') = None /\
  stat ["home"; "dev"; "app"; ".cursor"; "rules"; "rules.mdc"] (disk w')
    = Some (File "my old rules").
Proof.
  intros t w w'.
  apply (preexisting_cursorrules_is_migrated Scenario.generator
           "backend" "nestjs" w t "my old rules"); reflexivity.
Defined.

(** C3, as the code has it. For Cursor, when the directory creation and
    the copy succeed and leave a file [.cursor/.cursorrules], and when
    moreover [.cursor/rules] is then no regular file and
    [.cursor/rules/rules.mdc] no directory, the run ends with the success
    block, [.cursor/.cursorrules] is gone and [.cursor/rules/rules.mdc] is
    a file with the content [.cursorrules] had. *)
Theorem cursorrules_is_migrated this category framework w w1 w2 c :
  let tp := templatePath_of this "cursor" category framework in
  let out := outputDir_of (cwd w) "cursor" in
  let w' := fst (run (generateTemplate this "cursor" category framework) w) in
  ensureDir out w = (w1, Returned tt) ->
  copy tp out w1 = (w2, Returned tt) ->
  stat (out ++ [".cursorrules"]) (disk w2) = Some (File c) ->
  (forall x, stat (out ++ ["rules"]) (disk w2) <> Some (File x)) ->
  (forall x, stat (out ++ ["rules"; "rules.mdc"]) (disk w2) <> Some (Dir x)) ->
  stat (out ++ [".cursorrules"]) (disk w') = None /\
  stat (out ++ ["rules"; "rules.mdc"]) (disk w') = Some (File c) /\
  console w' = console w ++ Scenario.success_block "cursor" framework out.
Proof.
  intros tp out w' E1 E2 L NF ND.
  assert (S : stat tp (disk w) <> None).
  { destruct (ensureDir_returned _ _ _ E1) as [Mk _].
    destruct (mkdirp_result _ _ _ Mk) as [D1 _].
    destruct (copy_returned _ _ _ _ _ D1 E2) as (es & m & S1 & P & _).
    rewrite (mkdirp_frame _ _ _ _ Mk P) in S1. congruence. }
  destruct (stat_parent _ _ _ _ L) as (m & D2).
  assert (G : get ".cursorrules" m = Some (File c)).
  { rewrite stat_app, D2, stat_cons in L.
    destruct (get ".cursorrules" m); [exact L | discriminate]. }
  pose proof (legacy_migration_moves _ _ _ _ D2 G) as E3.
  assert (exists r, Scenario.rules_entries m = Some r
                    /\ Scenario.same_kind (File c) (get "rules.mdc" r) = true)
    as (r & Hr & Hk).
  { unfold Scenario.rules_entries.
    specialize (NF). rewrite stat_app, D2, stat_cons in NF.
    rewrite stat_app, D2, !stat_cons in ND.
    destruct (get "rules" m) as [[x | r] |].
    - now elim (NF x).
    - exists r. split; [reflexivity |]. unfold Scenario.same_kind.
      rewrite stat_cons in ND.
      destruct (get "rules.mdc" r) as [[y | y] |]; try reflexivity.
      now elim (ND y).
    - exists []. split; reflexivity. }
  rewrite Hr in E3. cbv zeta in E3. rewrite Hk in E3.
  destruct (generateTemplate_steps_success this "cursor" category framework
              w w1 w2 _ S E1 E2 E3) as (Hd & Hc & _).
  fold w' in Hd, Hc. cbn [disk with_disk] in Hd.
  rewrite Hd, !(stat_put_below _ _ _ _ _ D2). repeat split.
  - rewrite stat_cons, migrated_has_no_cursorrules. reflexivity.
  - apply migrated_has_rules_mdc.
  - exact Hc.
Qed.

Lemma cursorrules_is_migrated_witness :
  let w := Scenario.boot
             (Scenario.one_template "cursor" "backend" "fastify"
                (Dir [ (".cursorrules", File "legacy rules") ]))
             (Dir [ (".cursor", Dir [ ("rules", Dir [ ("rules.mdc", File "older") ]) ]) ])
             Scenario.enter in
  let w' := fst (run (generateTemplate Scenario.generator
                        "cursor" "backend" "fastify") w) in
  stat ["home"; "dev"; "app"; ".cursor"; ".cursorrules"] (disk w') = None /\
  stat ["home"; "dev"; "app"; ".cursor"; "rules"; "rules.mdc"] (disk w')
    = Some (File "legacy rules") /\
  console w' =
    Scenario.success_block "cursor" "fastify" ["home"; "dev"; "app"; ".cursor"].
Proof.
  intros w w'.
  pose (tp := templatePath_of Scenario.generator "cursor" "backend" "fastify").
  pose (out := outputDir_of (cwd w) "cursor").
  apply (cursorrules_is_migrated Scenario.generator "backend" "fastify" w
           (fst (ensureDir out w)) (fst (copy tp out (fst (ensureDir out w))))
           "legacy rules").
  - reflexivity.
  - reflexivity.
  - reflexivity.
  - intros x; discriminate.
  - intros x; discriminate.
Defined.

(** The claim of C3 fails when the copy succeeds but the migration cannot
    be done: with a regular file at [.cursor/rules], creating the [rules]
    directory throws, the error is printed, and [.cursorrules] stays where
    the copy put it. *)
Lemma rules_file_blocks_the_migration :
  let w := Scenario.boot
             (Scenario.one_template "cursor" "backend" "fastify"
                (Dir [ (".cursorrules", File "legacy rules") ]))
             (Dir [ (".cursor", Dir [ ("rules", File "notes") ]) ])
             Scenario.enter in
  let tp := templatePath_of Scenario.generator "cursor" "backend" "fastify" in
  let out := outputDir_of (cwd w) "cursor" in
  let w1 := fst (ensureDir out w) in
  let w2 := fst (copy tp out w1) in
  let w' := fst (run (generateTemplate Scenario.generator
                        "cursor" "backend" "fastify") w) in
  ensureDir out w = (w1, Returned tt) /\
  copy tp out w1 = (w2, Returned tt) /\
  stat (out ++ [".cursorrules"]) (disk w2) = Some (File "legacy rules") /\
  stat (out ++ [".cursorrules"]) (disk w') = Some (File "legacy rules") /\
  stat (out ++ ["rules"; "rules.mdc"]) (disk w') = None /\
  console w' =
    [ Log Red ("❌ Error generating template: "
                 ++ "EEXIST: file already exists, mkdir "
                 ++ "'/home/dev/app/.cursor/rules'")%string ].
Proof. cbv zeta. repeat split. Qed.

(** ** Success of the copy *)

Lemma compatible_nothing s : compatible s None = true.
Proof. destruct s; reflexivity. Qed.

Lemma mergeItems_succeeds sp dp es :
  Forall (fun kv =>
            forall sp dp d, compatible (snd kv) d = true ->
                            exists n, mergeNode sp dp (snd kv) d = (n, None)) es ->
  NoDup (map fst es) ->
  forall ds,
    (forall k v, In (k, v) es -> compatible v (get k ds) = true) ->
    exists ds', mergeItems sp dp es ds = (ds', None).
Proof.
  induction es as [| [k0 v0] es IH]; intros F ND ds C.
  - now exists ds.
  - inversion F as [| ? ? F0 F']; subst. inversion ND as [| ? ? NI ND']; subst.
    rewrite mergeItems_cons. cbn [snd] in F0.
    destruct (F0 (sp ++ [k0]) (dp ++ [k0]) (get k0 ds)) as (n0 & ->).
    { apply C. now left. }
    apply (IH F' ND'). intros k v I.
    rewrite get_set_other.
    + apply C. now right.
    + intros ->. apply NI. change k with (fst (k, v)). now apply in_map.
Qed.

(** A well-formed tree is copied without error onto anything it is
    compatible with. *)
Lemma mergeNode_succeeds : forall s,
  wf s = true ->
  forall sp dp d, compatible s d = true ->
  exists n, mergeNode sp dp s d = (n, None).
Proof.
  induction s as [c | es IH] using node_induction; intros W sp dp d C.
  - exists (File c). simpl in *. destruct d as [[? | ?] |]; congruence.
  - destruct (wf_dir _ W) as [ND WF].
    rewrite mergeNode_dir.
    assert (F : Forall (fun kv =>
                          forall sp dp d, compatible (snd kv) d = true ->
                                          exists n, mergeNode sp dp (snd kv) d = (n, None)) es).
    { rewrite Forall_forall in *. intros kv I. apply (IH kv I). exact (WF kv I). }
    destruct d as [[c | ds] |].
    + discriminate.
    + destruct (mergeItems_succeeds sp dp es F ND ds) as (ds' & ->).
      * intros k v I. cbn [compatible] in C. rewrite forallb_forall in C.
        exact (C _ I).
      * now exists (Dir ds').
    + destruct (mergeItems_succeeds sp dp es F ND []) as (ds' & ->).
      * intros k v I. apply compatible_nothing.
      * now exists (Dir ds').
Qed.

(** ** What the output directory held *)

Lemma ensureDir_created p w d :
  mkdirp p (disk w) = Some d -> ensureDir p w = (with_disk d w, Returned tt).
Proof. intros H. unfold ensureDir. now rewrite H. Qed.

(** What the output directory holds under a name, before it exists or
    after [mkdir -p]. *)
Lemma entries_before out k n :
  get k (match stat out n with Some (Dir ds) => ds | _ => [] end) =
  match stat out n with
  | Some (Dir ds) => stat (out ++ [k]) n
  | _ => None
  end.
Proof.
  rewrite stat_app.
  destruct (stat out n) as [[c | ds] |]; try reflexivity.
  rewrite stat_cons. destruct (get k ds); reflexivity.
Qed.

(** The migration leaves alone what is neither at or below
    [.cursorrules] nor at or below [rules/rules.mdc]. *)
Lemma migrated_frame m legacy r q c :
  Scenario.rules_entries m = Some r ->
  is_prefix [".cursorrules"] q = false ->
  is_prefix ["rules"; "rules.mdc"] q = false ->
  stat q (Dir m) = Some (File c) ->
  stat q (Dir (Scenario.migrated m legacy r)) = Some (File c).
Proof.
  intros Hr P1 P2 S. destruct q as [| a q]; [discriminate |].
  cbn [is_prefix] in P1, P2. rewrite andb_true_r in P1.
  apply String.eqb_neq in P1.
  rewrite stat_cons in *. unfold Scenario.migrated.
  destruct (String.eqb_spec "rules" a) as [<- | N].
  - rewrite get_set_same. unfold Scenario.rules_entries in Hr.
    destruct (get "rules" m) as [[x | r0] |]; try discriminate.
    injection Hr as ->.
    destruct q as [| b q]; [discriminate |].
    cbn [andb] in P2. rewrite andb_true_r in P2. apply String.eqb_neq in P2.
    rewrite stat_cons in *.
    rewrite get_set_other, get_del_other by congruence. exact S.
  - rewrite get_set_other, get_del_other, !get_set_other by congruence.
    exact S.
Qed.

(** ** Copying again after a migration *)

Section Again.
Implicit Types (k a b : string) (v x y : node) (es B : entries_t).


Lemma del_set_other a b v es : a <> b -> del a (set b v es) = set b v (del a es).
Proof.
  intros N. induction es as [| [k0 v0] es IH]; simpl.
  - destruct (String.eqb_spec a b); [congruence | reflexivity].
  - destruct (String.eqb_spec b k0) as [<- | Nb]; simpl.
    + destruct (String.eqb_spec a b) as [-> | _]; [congruence |].
      simpl. now rewrite String.eqb_refl.
    + destruct (String.eqb a k0) eqn:Ea; simpl.
      * exact IH.
      * destruct (String.eqb_spec b k0); [congruence |]. now rewrite IH.
Qed.




(** The copy keeps the kind of what it copies. *)
Lemma mergeNode_kind sp dp s d n :
  mergeNode sp dp s d = (n, None) -> isDirectory n = isDirectory s.
Proof.
  destruct s as [c | es].
  - intros H. apply mergeNode_file_ok in H. now subst.
  - rewrite mergeNode_dir. destruct d as [[c | ds] |]; [discriminate | |];
      destruct (mergeItems sp dp es _) as [ds' e]; intros [= <- _]; reflexivity.
Qed.



Lemma migrated_simpl m legacy r :
  Scenario.migrated m legacy r =
  set "rules" (Dir (set "rules.mdc" legacy (del "rules.mdc" r)))
    (del ".cursorrules" m).
Proof.
  unfold Scenario.migrated.
  rewrite set_set_same, del_set_other by discriminate.
  apply set_set_same.
Qed.






End Again.

(** ** Running the generation twice *)


(** What a run that ended with the success block has done: the output
    directory, with entries [ds0], was there or was created; the template,
    with entries [es], was copied into it, which gave the entries [m];
    then came the migration step. *)
Lemma successful_run_facts this ai category framework w :
  let tp := templatePath_of this ai category framework in
  let out := outputDir_of (cwd w) ai in
  let w' := fst (run (generateTemplate this ai category framework) w) in
  let ds0 := match stat out (disk w) with Some (Dir ds) => ds | _ => [] end in
  console w' = console w ++ Scenario.success_block ai framework out ->
  exists d1 es m wb wc,
    stat out d1 = Some (Dir ds0) /\
    stat tp (disk w) = Some (Dir es) /\
    is_prefix tp out = false /\
    mergeItems tp out es ds0 = (m, None) /\
    disk wb = put out (Dir m) d1 /\
    Scenario.legacy_migration ai out wb = (wc, Returned tt) /\
    disk w' = disk wc.
Proof.
  intros tp out w' ds0 Hok.
  destruct (generateTemplate_success_steps this ai category framework w Hok)
    as (wa & wb & wc & _ & E1 & E2 & E3 & Hd).
  fold tp in E2. fold out in E1, E2, E3. fold w' in Hd.
  destruct (ensureDir_returned _ _ _ E1) as [Mk _].
  destruct (mkdirp_result _ _ _ Mk) as [D1 _]. fold ds0 in D1.
  destruct (copy_returned _ _ _ _ _ D1 E2) as (es & m & S1 & P & Hm & Hd2).
  rewrite (mkdirp_frame _ _ _ _ Mk P) in S1.
  exists (disk wa), es, m, wb, wc. auto 10.
Qed.




(** * Further properties of the generator *)

(** ** Only the output directory changes *)

Section Frame.
Implicit Types (p q : path) (n v : node).

Lemma stat_nil_below q : q <> [] -> stat q (Dir []) = None.
Proof. destruct q; [congruence | reflexivity]. Qed.

(** A write at [p] is not seen at a path that neither leads to [p] nor
    lies below it. *)
Lemma stat_put_frame p : forall q v n,
  is_prefix p q = false -> is_prefix q p = false ->
  stat q (put p v n) = stat q n.
Proof.
  induction p as [| a p IH]; intros q v n P Q; [discriminate |].
  destruct q as [| b q]; [discriminate |].
  destruct n as [c | es]; [reflexivity |].
  rewrite put_cons, !stat_cons. cbn [is_prefix] in P, Q.
  destruct (String.eqb_spec a b) as [-> | N].
  - rewrite String.eqb_refl in Q. cbn [andb] in P, Q.
    rewrite get_set_same, (IH _ _ _ P Q).
    destruct (get b es); [reflexivity |].
    apply stat_nil_below. intros ->. discriminate.
  - rewrite get_set_other by exact N. reflexivity.
Qed.

Lemma stat_remove_frame p : forall q n,
  is_prefix p q = false -> is_prefix q p = false ->
  stat q (remove p n) = stat q n.
Proof.
  induction p as [| a p IH]; intros q n P Q; [discriminate |].
  destruct q as [| b q]; [discriminate |].
  destruct n as [c | es]; [destruct p; reflexivity |].
  cbn [is_prefix] in P, Q.
  destruct p as [| a' p].
  - rewrite remove_last, !stat_cons.
    destruct (String.eqb_spec a b) as [-> | N]; [discriminate |].
    now rewrite get_del_other.
  - rewrite remove_cons.
    destruct (get a es) as [ch |] eqn:G; [| reflexivity].
    rewrite !stat_cons.
    destruct (String.eqb_spec a b) as [-> | N].
    + rewrite String.eqb_refl in Q. cbn [andb] in P, Q.
      rewrite get_set_same, G. now apply IH.
    + rewrite get_set_other by exact N. reflexivity.
Qed.

(** Paths apart from [p] are apart from everything below [p], and not
    above its parent. *)
Lemma apart_below p : forall q (r : path),
  is_prefix p q = false -> is_prefix q p = false ->
  is_prefix (p ++ r) q = false /\ is_prefix q (p ++ r) = false.
Proof.
  induction p as [| a p IH]; intros q r P Q; [discriminate |].
  destruct q as [| b q]; [discriminate |].
  cbn [is_prefix app] in *.
  destruct (String.eqb a b) eqn:E1, (String.eqb b a) eqn:E2;
    cbn [andb] in *; try (split; reflexivity).
  - now apply IH.
  - apply String.eqb_eq in E1. subst. rewrite String.eqb_refl in E2.
    discriminate.
  - apply String.eqb_eq in E2. subst. rewrite String.eqb_refl in E1.
    discriminate.
Qed.

Lemma not_prefix_of_parent p : forall q,
  is_prefix q p = false -> is_prefix q (dirname_of p) = false.
Proof.
  unfold dirname_of. induction p as [| a p IH]; intros q Q; [exact Q |].
  destruct q as [| b q]; [discriminate |].
  destruct p as [| a' p]; [reflexivity |].
  change (removelast (a :: a' :: p)) with (a :: removelast (a' :: p)).
  cbn [is_prefix] in *.
  destruct (String.eqb b a); [| reflexivity]. cbn [andb] in *.
  now apply IH.
Qed.

Lemma ensureDir_frame p q w :
  is_prefix q p = false ->
  stat q (disk (fst (ensureDir p w))) = stat q (disk w).
Proof.
  intros Q. unfold ensureDir.
  destruct (mkdirp p (disk w)) as [d |] eqn:Mk.
  - exact (mkdirp_frame _ _ _ _ Mk Q).
  - destruct (stat p (disk w)); reflexivity.
Qed.

Lemma copy_frame src dest q w :
  is_prefix dest q = false -> is_prefix q dest = false ->
  stat q (disk (fst (copy src dest w))) = stat q (disk w).
Proof.
  intros P Q. unfold copy.
  destruct (checkPaths "copy" src dest (disk w)) as [e | s]; [reflexivity |].
  destruct (mkdirp (dirname_of dest) (disk w)) as [d1 |] eqn:Mk;
    [| reflexivity].
  pose proof (mkdirp_frame _ _ _ _ Mk (not_prefix_of_parent _ _ Q)) as F.
  destruct (mergeNode src dest s (stat dest d1)) as [n [e |]];
    cbn [fst disk with_disk fs_throw throw]; now rewrite stat_put_frame.
Qed.

Lemma move_overwrite_frame src dest q w :
  is_prefix src q = false -> is_prefix q src = false ->
  is_prefix dest q = false -> is_prefix q dest = false ->
  stat q (disk (fst (move_overwrite src dest w))) = stat q (disk w).
Proof.
  intros P1 Q1 P2 Q2. unfold move_overwrite.
  destruct (checkPaths "move" src dest (disk w)) as [e | s]; [reflexivity |].
  destruct (mkdirp (dirname_of dest) (disk w)) as [d1 |] eqn:Mk;
    [| reflexivity].
  cbn [fst disk with_disk].
  rewrite stat_put_frame, !stat_remove_frame by assumption.
  exact (mkdirp_frame _ _ _ _ Mk (not_prefix_of_parent _ _ Q2)).
Qed.

Lemma legacy_migration_frame ai out q w :
  is_prefix out q = false -> is_prefix q out = false ->
  stat q (disk (fst (Scenario.legacy_migration ai out w))) = stat q (disk w).
Proof.
  intros P Q. unfold Scenario.legacy_migration, bind, pathExists, ret.
  destruct (String.eqb ai "cursor"); [| reflexivity].
  change (path_join out [".cursorrules"]) with (out ++ [".cursorrules"]).
  change (path_join (path_join out ["rules"]) ["rules.mdc"])
    with ((out ++ ["rules"]) ++ ["rules.mdc"]).
  change (path_join out ["rules"]) with (out ++ ["rules"]).
  rewrite <- app_assoc. cbn [app].
  destruct (stat (out ++ [".cursorrules"]) (disk w)); [| reflexivity].
  destruct (apart_below out q ["rules"] P Q) as [P1 Q1].
  destruct (apart_below out q [".cursorrules"] P Q) as [P2 Q2].
  destruct (apart_below out q ["rules"; "rules.mdc"] P Q) as [P3 Q3].
  pose proof (ensureDir_frame (out ++ ["rules"]) q w Q1) as F1.
  destruct (ensureDir (out ++ ["rules"]) w) as [w1 [[] | e |]];
    cbn [fst] in *; [| exact F1 | exact F1].
  rewrite <- F1. now apply move_overwrite_frame.
Qed.
End Frame.

(** X1. Whatever the outcome, [generateTemplate] changes nothing outside
    the output directory: what is at a path that neither leads to
    [.<tool>] nor lies in it is the same before and after. In particular
    a template that lies apart from the output directory is left as it
    was. *)
Theorem only_the_output_directory_changes this ai category framework w q :
  let out := outputDir_of (cwd w) ai in
  let w' := fst (run (generateTemplate this ai category framework) w) in
  is_prefix out q = false ->
  is_prefix q out = false ->
  stat q (disk w') = stat q (disk w).
Proof.
  intros out w' P Q. subst w'. rewrite generateTemplate_steps. cbv zeta.
  fold out. destruct (stat _ (disk w)); [| reflexivity].
  pose proof (ensureDir_frame out q w Q) as F1.
  destruct (ensureDir out w) as [w1 [[] | e1 |]]; cbn [fst] in *;
    [| exact F1 | exact F1].
  pose proof (copy_frame (templatePath_of this ai category framework)
                out q w1 P Q) as F2.
  destruct (copy _ out w1) as [w2 [[] | e2 |]]; cbn [fst] in *;
    [| cbn [emit disk]; congruence | congruence].
  pose proof (legacy_migration_frame ai out q w2 P Q) as F3.
  destruct (Scenario.legacy_migration ai out w2) as [w3 [[] | e3 |]];
    cbn [fst emit disk] in *; congruence.
Qed.

Lemma only_the_output_directory_changes_witness :
  let t := Dir [ (".cursorrules", File "legacy rules") ] in
  let w := Scenario.boot
             (Scenario.one_template "cursor" "backend" "fastify" t)
             (Dir [ ("package.json", File "{}") ]) Scenario.enter in
  let w' := fst (run (generateTemplate Scenario.generator
                        "cursor" "backend" "fastify") w) in
  stat ["home"; "dev"; "app"; "package.json"] (disk w') = Some (File "{}") /\
  stat ["opt"; "ai-templates"; "templates"; "cursor"; "backend"; "fastify"]
    (disk w') = Some t.
Proof.
  intros t w w'. split.
  - apply (only_the_output_directory_changes Scenario.generator
             "cursor" "backend" "fastify" w
             ["home"; "dev"; "app"; "package.json"]); reflexivity.
  - apply (only_the_output_directory_changes Scenario.generator
             "cursor" "backend" "fastify" w
             ["opt"; "ai-templates"; "templates"; "cursor"; "backend"; "fastify"]);
      reflexivity.
Defined.

(** ** What a successful run keeps *)

Lemma migrated_frame_any m legacy r q :
  Scenario.rules_entries m = Some r ->
  is_prefix [".cursorrules"] q = false ->
  is_prefix q ["rules"; "rules.mdc"] = false ->
  is_prefix ["rules"; "rules.mdc"] q = false ->
  stat q (Dir (Scenario.migrated m legacy r)) = stat q (Dir m).
Proof.
  intros Hr P1 P2 P3. destruct q as [| a q]; [discriminate |].
  cbn [is_prefix] in P1, P2, P3. rewrite andb_true_r in P1.
  apply String.eqb_neq in P1.
  rewrite migrated_simpl, !stat_cons.
  destruct (String.eqb_spec "rules" a) as [<- | N].
  - rewrite get_set_same. rewrite ?String.eqb_refl in P2.
    rewrite ?String.eqb_refl in P3. cbn [andb] in P2, P3.
    destruct q as [| b q]; [discriminate |].
    cbn [is_prefix] in P3. rewrite andb_true_r in P3.
    apply String.eqb_neq in P3.
    rewrite stat_cons, get_set_other, get_del_other by congruence.
    unfold Scenario.rules_entries in Hr.
    destruct (get "rules" m) as [[x | r0] |]; try discriminate;
      injection Hr as <-; reflexivity.
  - rewrite get_set_other, get_del_other by congruence. reflexivity.
Qed.

(** ** The template arrives, and what was there stays *)

(** A successful copy keeps the kind of everything it copies, at every
    depth. *)
Lemma mergeNode_kind_at : forall s,
  wf s = true ->
  forall sp dp d n, mergeNode sp dp s d = (n, None) ->
  forall q x, stat q s = Some x ->
  exists y, stat q n = Some y /\ isDirectory y = isDirectory x.
Proof.
  induction s as [c0 | es IH] using node_induction; intros W sp dp d n H q x S.
  - destruct q; [| discriminate]. simpl in S. injection S as <-.
    exists n. split; [reflexivity |]. exact (mergeNode_kind _ _ _ _ _ H).
  - destruct q as [| k q].
    + simpl in S. injection S as <-.
      exists n. split; [reflexivity |]. exact (mergeNode_kind _ _ _ _ _ H).
    + simpl in S. destruct (get k es) as [v |] eqn:G; [| discriminate].
      rewrite mergeNode_dir in H.
      assert (exists ds0 ds', mergeItems sp dp es ds0 = (ds', None) /\ n = Dir ds')
        as (ds0 & ds' & HI & ->).
      { destruct d as [[? | ds] |]; [discriminate | |];
          match type of H with
          | (let (_, _) := mergeItems ?a ?b ?c ?d in _) = _ =>
              destruct (mergeItems a b c d) as [ds' e] eqn:HI
          end; inversion H; subst; eauto. }
      destruct (wf_dir _ W) as [ND WF].
      destruct (mergeItems_ok_entry _ _ _ _ _ ND HI _ _ G) as (nk & Ek & Gk).
      simpl. rewrite Gk. rewrite Forall_forall in IH, WF.
      exact (IH _ (get_In _ _ _ G) (WF _ (get_In _ _ _ G)) _ _ _ _ Ek _ _ S).
Qed.

(** After a successful copy, what is at a path of the destination has
    the kind [left_by_copy] tells. *)
Lemma copy_leaves_kind sp dp es ds m q :
  wf (Dir es) = true ->
  mergeItems sp dp es ds = (m, None) ->
  option_map isDirectory (stat q (Dir m)) =
  option_map isDirectory (Scenario.left_by_copy es ds q).
Proof.
  intros W Hm.
  assert (Hn : mergeNode sp dp (Dir es) (Some (Dir ds)) = (Dir m, None)).
  { rewrite mergeNode_dir, Hm. reflexivity. }
  unfold Scenario.left_by_copy.
  destruct (stat q (Dir es)) as [x |] eqn:S.
  - destruct (mergeNode_kind_at _ W _ _ _ _ Hn _ _ S) as (y & -> & K).
    simpl. now rewrite K.
  - now rewrite (mergeNode_frame _ W _ _ _ _ Hn _ S).
Qed.

Lemma same_kind_kinds a a' (t t' : option node) :
  isDirectory a = isDirectory a' ->
  option_map isDirectory t = option_map isDirectory t' ->
  Scenario.same_kind a t = Scenario.same_kind a' t'.
Proof.
  intros Ka Kt. unfold Scenario.same_kind.
  destruct t as [d |], t' as [d' |]; simpl in Kt; try discriminate;
    [| reflexivity].
  injection Kt as ->. now rewrite Ka.
Qed.

(** The migration step returns when nothing hinders it. *)
Lemma unhindered_migration_returns sp dp out w es ds m :
  stat out (disk w) = Some (Dir m) ->
  wf (Dir es) = true ->
  mergeItems sp dp es ds = (m, None) ->
  Scenario.migration_unhindered es ds = true ->
  exists w3, Scenario.legacy_migration "cursor" out w = (w3, Returned tt).
Proof.
  intros D W Hm H.
  pose proof (copy_leaves_kind sp dp es ds m [".cursorrules"] W Hm) as K1.
  pose proof (copy_leaves_kind sp dp es ds m ["rules"] W Hm) as K2.
  pose proof (copy_leaves_kind sp dp es ds m ["rules"; "rules.mdc"] W Hm) as K3.
  rewrite stat_cons in K1, K2, K3. unfold Scenario.migration_unhindered in H.
  destruct (get ".cursorrules" m) as [legacy |] eqn:G.
  - cbn [stat option_map] in K1.
    destruct (Scenario.left_by_copy es ds [".cursorrules"]) as [legacy0 |];
      [| discriminate].
    cbn [option_map] in K1. injection K1 as K1.
    apply andb_true_iff in H. destruct H as [NF SK].
    rewrite (legacy_migration_moves _ _ _ _ D G).
    unfold Scenario.rules_entries.
    destruct (get "rules" m) as [[x | r] |] eqn:R.
    + exfalso. cbn [stat option_map isDirectory] in K2.
      destruct (Scenario.left_by_copy es ds ["rules"]) as [[y | y] |];
        cbn [option_map isDirectory Scenario.is_file negb] in *; discriminate.
    + cbv zeta.
      assert (SK' : Scenario.same_kind legacy (get "rules.mdc" r) = true).
      { rewrite (same_kind_kinds legacy legacy0 (get "rules.mdc" r)
                   (Scenario.left_by_copy es ds ["rules"; "rules.mdc"]) K1);
          [exact SK |].
        rewrite <- K3, stat_cons. destruct (get "rules.mdc" r); reflexivity. }
      rewrite SK'. eexists; reflexivity.
    + cbv zeta. cbn [get assoc Scenario.same_kind]. eexists; reflexivity.
  - eexists. exact (legacy_migration_nothing_to_move _ _ _ D G).
Qed.

(** C1, as the code has it. From a well-formed disk where the template is
    a directory:
    - the run ends with the success block whenever the output directory
      can be created, does not lie inside the template, holds no file where
      the template has a directory nor a directory where it has a file,
      and, for Cursor, nothing hinders the migration: once copied, there is
      no [.cursorrules], or [rules] is no regular file and [rules/rules.mdc]
      is nothing or of the kind of [.cursorrules];
    - after any run that ends with the success block, every file of the
      template is in the output directory at the same relative path with
      the same content, whatever was there, and where the template has
      nothing the output directory holds what it held before: the copy
      merges. For Cursor with a top-level [.cursorrules] in the template
      or in the output directory, this leaves out the paths the migration
      moves or overwrites, those at or below [.cursorrules] and
      [rules/rules.mdc] (and [rules] itself, which it may create). *)
Theorem template_files_are_copied this ai category framework w es :
  let tp := templatePath_of this ai category framework in
  let out := outputDir_of (cwd w) ai in
  let w' := fst (run (generateTemplate this ai category framework) w) in
  let ds := match stat out (disk w) with Some (Dir ds) => ds | _ => [] end in
  wf (disk w) = true ->
  stat tp (disk w) = Some (Dir es) ->
  (mkdirp out (disk w) <> None ->
   is_prefix tp out = false ->
   compatible (Dir es) (stat out (disk w)) = true ->
   (ai = "cursor" -> Scenario.migration_unhindered es ds = true) ->
   console w' = console w ++ Scenario.success_block ai framework out) /\
  (console w' = console w ++ Scenario.success_block ai framework out ->
   (forall q c,
      stat q (Dir es) = Some (File c) ->
      (ai = "cursor" ->
       get ".cursorrules" es <> None \/
       stat (out ++ [".cursorrules"]) (disk w) <> None ->
       is_prefix [".cursorrules"] q = false /\
       is_prefix ["rules"; "rules.mdc"] q = false) ->
      stat (out ++ q) (disk w') = Some (File c)) /\
   (forall q,
      stat q (Dir es) = None ->
      (ai = "cursor" ->
       get ".cursorrules" es <> None \/
       stat (out ++ [".cursorrules"]) (disk w) <> None ->
       is_prefix [".cursorrules"] q = false /\
       is_prefix q ["rules"; "rules.mdc"] = false /\
       is_prefix ["rules"; "rules.mdc"] q = false) ->
      stat (out ++ q) (disk w') = stat (out ++ q) (disk w))).
Proof.
  intros tp out w' ds0 W S.
  pose proof (wf_stat _ _ _ W S) as Ws.
  split.
  - intros Mk P C L.
    destruct (mkdirp out (disk w)) as [d1 |] eqn:Mk1; [clear Mk | congruence].
    pose proof (ensureDir_created _ _ _ Mk1) as E1.
    destruct (mkdirp_result _ _ _ Mk1) as [D1 NF]. fold ds0 in D1.
    assert (S1 : stat tp d1 = Some (Dir es))
      by (rewrite (mkdirp_frame _ _ _ _ Mk1 P); exact S).
    assert (C0 : compatible (Dir es) (Some (Dir ds0)) = true).
    { unfold ds0. destruct (stat out (disk w)) as [[c | ds] |].
      - now elim (NF c).
      - exact C.
      - cbn [compatible]. apply forallb_forall. intros kv _.
        apply compatible_nothing. }
    destruct (mergeNode_succeeds _ Ws tp out _ C0) as (n & Hn).
    rewrite mergeNode_dir in Hn.
    destruct (mergeItems tp out es ds0) as [m e] eqn:Hm.
    injection Hn as <- ->.
    pose proof (copy_dir_onto_dir tp out (with_disk d1 w) es ds0 S1 D1 P) as E2.
    rewrite Hm in E2. cbn [fst snd disk with_disk] in E2.
    set (w2 := with_disk (put out (Dir m) d1) (with_disk d1 w)) in *.
    assert (D2 : stat out (disk w2) = Some (Dir m))
      by exact (stat_put_same _ _ _ _ D1).
    assert (exists w3, Scenario.legacy_migration ai out w2 = (w3, Returned tt))
      as (w3 & E3).
    { destruct (String.eqb_spec ai "cursor") as [-> | N].
      - exact (unhindered_migration_returns tp out out w2 es ds0 m D2 Ws Hm
                 (L eq_refl)).
      - exists w2. apply legacy_migration_not_cursor. now apply String.eqb_neq. }
    apply (generateTemplate_steps_success this ai category framework
             w _ _ _ ltac:(fold tp; congruence) E1 E2 E3).
  - intros Hok.
    destruct (generateTemplate_success_steps this ai category framework w Hok)
      as (w1 & w2 & w3 & _ & E1 & E2 & E3 & Hd).
    fold tp in E2. fold out in E1, E2, E3. fold w' in Hd.
    destruct (ensureDir_returned _ _ _ E1) as [Mk _].
    destruct (mkdirp_result _ _ _ Mk) as [D1 _]. fold ds0 in D1.
    destruct (copy_returned _ _ _ _ _ D1 E2) as (es' & m & S1 & P & Hm & Hd2).
    rewrite (mkdirp_frame _ _ _ _ Mk P), S in S1. injection S1 as <-.
    assert (Hn : mergeNode tp out (Dir es) (Some (Dir ds0)) = (Dir m, None)).
    { rewrite mergeNode_dir, Hm. reflexivity. }
    assert (D2 : stat out (disk w2) = Some (Dir m)).
    { rewrite Hd2. exact (stat_put_same _ _ _ _ D1). }
    (* a [.cursorrules] after the copy came from the template or was there *)
    assert (Origin : get ".cursorrules" m <> None ->
              get ".cursorrules" es <> None \/
              stat (out ++ [".cursorrules"]) (disk w) <> None).
    { intros G. destruct (get ".cursorrules" es) eqn:Ge; [left; discriminate |].
      right. intros L. apply G.
      change m with (fst (m, @None fserror)). rewrite <- Hm.
      rewrite (mergeItems_get_other _ _ _ _ _ Ge).
      unfold ds0. rewrite entries_before.
      destruct (stat out (disk w)) as [[? | ?] |]; auto. }
    rewrite Hd. split.
    + intros q c Sq Hq.
      pose proof (mergeNode_keeps_files _ Ws _ _ _ _ Hn _ _ Sq) as Sm.
      destruct (String.eqb_spec ai "cursor") as [Hai | Hai].
      * subst ai.
        destruct (get ".cursorrules" m) as [legacy |] eqn:G.
        -- destruct (legacy_migration_returned _ _ _ _ _ D2 G E3)
             as (r & Hr & _ & Hd3).
           rewrite Hd3, (stat_put_below _ _ _ _ _ D2).
           destruct Hq as [P1 P2];
             [reflexivity | apply Origin; discriminate |].
           exact (migrated_frame _ _ _ _ _ Hr P1 P2 Sm).
        -- rewrite (legacy_migration_nothing_to_move _ _ _ D2 G) in E3.
           injection E3 as <-.
           rewrite Hd2, (stat_put_below _ _ _ _ _ D1). exact Sm.
      * apply String.eqb_neq in Hai.
        rewrite (legacy_migration_not_cursor _ _ _ Hai) in E3.
        injection E3 as <-.
        rewrite Hd2, (stat_put_below _ _ _ _ _ D1). exact Sm.
    + intros q Sq Hq.
      assert (Qne : q <> []) by (intros ->; discriminate).
      assert (Sm : stat q (Dir m) = stat (out ++ q) (disk w)).
      { rewrite (mergeNode_frame _ Ws _ _ _ _ Hn _ Sq).
        rewrite <- (mkdirp_below _ _ _ _ Mk Qne), stat_app, D1. reflexivity. }
      assert (Plain : w3 = w2 ->
                stat (out ++ q) (disk w3) = stat (out ++ q) (disk w)).
      { intros ->. rewrite stat_app, D2. exact Sm. }
      destruct (String.eqb_spec ai "cursor") as [Hai | Hai].
      * subst ai. destruct (get ".cursorrules" m) as [legacy |] eqn:G.
        -- destruct (legacy_migration_returned _ _ _ _ _ D2 G E3)
             as (r & Hr & _ & Hd3).
           rewrite Hd3, (stat_put_below _ _ _ _ _ D2), <- Sm.
           destruct Hq as (P1 & P2 & P3);
             [reflexivity | apply Origin; discriminate |].
           exact (migrated_frame_any _ _ _ _ Hr P1 P2 P3).
        -- rewrite (legacy_migration_nothing_to_move _ _ _ D2 G) in E3.
           apply Plain. congruence.
      * apply String.eqb_neq in Hai.
        rewrite (legacy_migration_not_cursor _ _ _ Hai) in E3.
        apply Plain. congruence.
Qed.

Lemma template_files_are_copied_witness :
  let t := [ (".cursorrules", File "legacy rules");
             ("rules", Dir [ ("code-style.mdc", File "Code Style") ]) ] in
  let w := Scenario.boot
             (Scenario.one_template "cursor" "backend" "fastify" (Dir t))
             (Dir [ ("package.json", File "{}");
                    (".cursor", Dir [ ("notes.md", File "mine") ]) ])
             Scenario.enter in
  let w' := fst (run (generateTemplate Scenario.generator
                        "cursor" "backend" "fastify") w) in
  console w' =
    Scenario.success_block "cursor" "fastify" ["home"; "dev"; "app"; ".cursor"] /\
  stat ["home"; "dev"; "app"; ".cursor"; "rules"; "code-style.mdc"] (disk w')
    = Some (File "Code Style") /\
  stat ["home"; "dev"; "app"; ".cursor"; "notes.md"] (disk w')
    = Some (File "mine").
Proof.
  intros t w w'.
  destruct (template_files_are_copied Scenario.generator
              "cursor" "backend" "fastify" w t) as [H1 H2];
    [reflexivity | reflexivity |].
  assert (Hok : console w' =
                Scenario.success_block "cursor" "fastify"
                  ["home"; "dev"; "app"; ".cursor"]).
  { apply H1.
    - discriminate.
    - reflexivity.
    - reflexivity.
    - intros _. reflexivity. }
  destruct (H2 Hok) as [H3 H4].
  split; [exact Hok |]. split.
  - apply (H3 ["rules"; "code-style.mdc"] "Code Style").
    + reflexivity.
    + intros _ _. split; reflexivity.
  - change (Some (File "mine"))
      with (stat (outputDir_of (cwd w) "cursor" ++ ["notes.md"]) (disk w)).
    apply (H4 ["notes.md"]).
    + reflexivity.
    + intros _ _. repeat split.
Defined.

(** The claim of C1 fails for a Cursor template with a top-level
    [.cursorrules]: the run succeeds, and the file is not in the output
    directory at the path it has in the template, because the migration
    has moved it. *)
Lemma migrated_file_is_not_at_its_template_path :
  let w := Scenario.boot
             (Scenario.one_template "cursor" "backend" "fastify"
                (Dir [ (".cursorrules", File "rules") ]))
             (Dir []) Scenario.enter in
  let tp := templatePath_of Scenario.generator "cursor" "backend" "fastify" in
  let out := outputDir_of (cwd w) "cursor" in
  let w' := fst (run (generateTemplate Scenario.generator
                        "cursor" "backend" "fastify") w) in
  In (mkChoice "Cursor" "cursor") AI_OPTIONS /\
  In (mkChoice "Backend" "backend") CATEGORY_OPTIONS /\
  FRAMEWORK_OPTIONS "backend" = JArray
    [ mkChoice "Fastify" "fastify"; mkChoice "NestJS" "nestjs";
      mkChoice "Koa" "koa"; mkChoice "Express" "express";
      mkChoice "Hapi" "hapi" ] /\
  stat (tp ++ [".cursorrules"]) (disk w) = Some (File "rules") /\
  console w' = Scenario.success_block "cursor" "fastify" out /\
  stat (out ++ [".cursorrules"]) (disk w') = None.
Proof. cbv zeta. simpl. repeat split; auto. Qed.

(** X2. The copy merges: after a run that ended with the success block
    (from a well-formed disk), at every relative path where the template
    has nothing, the output directory holds what it held before. For
    Cursor with a [.cursorrules] to migrate, this holds away from
    [.cursorrules] and from [rules/rules.mdc]. *)
Theorem existing_content_is_kept this ai category framework w es q :
  let tp := templatePath_of this ai category framework in
  let out := outputDir_of (cwd w) ai in
  let w' := fst (run (generateTemplate this ai category framework) w) in
  wf (disk w) = true ->
  stat tp (disk w) = Some (Dir es) ->
  console w' = console w ++ Scenario.success_block ai framework out ->
  stat q (Dir es) = None ->
  (ai = "cursor" ->
   get ".cursorrules" es <> None \/
   stat (out ++ [".cursorrules"]) (disk w) <> None ->
   is_prefix [".cursorrules"] q = false /\
   is_prefix q ["rules"; "rules.mdc"] = false /\
   is_prefix ["rules"; "rules.mdc"] q = false) ->
  stat (out ++ q) (disk w') = stat (out ++ q) (disk w).
Proof.
  intros tp out w' W S Hok Sq Hq.
  pose proof (wf_stat _ _ _ W S) as Ws.
  destruct (generateTemplate_success_steps this ai category framework w Hok)
    as (w1 & w2 & w3 & _ & E1 & E2 & E3 & Hd).
  fold tp in E2. fold out in E1, E2, E3. fold w' in Hd.
  destruct (ensureDir_returned _ _ _ E1) as [Mk _].
  destruct (mkdirp_result _ _ _ Mk) as [D1 _].
  set (ds0 := match stat out (disk w) with Some (Dir ds) => ds | _ => [] end) in *.
  destruct (copy_returned _ _ _ _ _ D1 E2) as (es' & m & S1 & P & Hm & Hd2).
  rewrite (mkdirp_frame _ _ _ _ Mk P), S in S1. injection S1 as <-.
  assert (Hn : mergeNode tp out (Dir es) (Some (Dir ds0)) = (Dir m, None)).
  { rewrite mergeNode_dir, Hm. reflexivity. }
  assert (Qne : q <> []) by (intros ->; discriminate).
  assert (Sm : stat q (Dir m) = stat (out ++ q) (disk w)).
  { rewrite (mergeNode_frame _ Ws _ _ _ _ Hn _ Sq).
    rewrite <- (mkdirp_below _ _ _ _ Mk Qne), stat_app, D1. reflexivity. }
  assert (D2 : stat out (disk w2) = Some (Dir m)).
  { rewrite Hd2. exact (stat_put_same _ _ _ _ D1). }
  assert (Plain : w3 = w2 -> stat (out ++ q) (disk w') = stat (out ++ q) (disk w)).
  { intros ->. rewrite Hd, stat_app, D2. exact Sm. }
  destruct (String.eqb_spec ai "cursor") as [Hai | Hai].
  - subst ai. destruct (get ".cursorrules" m) as [legacy |] eqn:G.
    + destruct (legacy_migration_returned _ _ _ _ _ D2 G E3)
        as (r & Hr & _ & Hd3).
      rewrite Hd, Hd3, (stat_put_below _ _ _ _ _ D2), <- Sm.
      destruct Hq as (P1 & P2 & P3); [reflexivity | |].
      { destruct (get ".cursorrules" es) eqn:Ge; [left; discriminate |].
        right. intros L.
        assert (G0 : get ".cursorrules" m = None).
        { change m with (fst (m, @None fserror)). rewrite <- Hm.
          rewrite (mergeItems_get_other _ _ _ _ _ Ge).
          unfold ds0. rewrite entries_before.
          destruct (stat out (disk w)) as [[? | ?] |]; auto. }
        congruence. }
      exact (migrated_frame_any _ _ _ _ Hr P1 P2 P3).
    + rewrite (legacy_migration_nothing_to_move _ _ _ D2 G) in E3.
      apply Plain. congruence.
  - apply String.eqb_neq in Hai.
    rewrite (legacy_migration_not_cursor _ _ _ Hai) in E3.
    apply Plain. congruence.
Qed.

Lemma existing_content_is_kept_witness :
  let es := [ ("rules", Dir [ ("code-style.mdc", File "Code Style") ]) ] in
  let w := Scenario.boot
             (Scenario.one_template "cursor" "backend" "fastify" (Dir es))
             (Dir [ (".cursor",
                     Dir [ ("rules", Dir [ ("mine.mdc", File "my rule") ]) ]) ])
             Scenario.enter in
  let w' := fst (run (generateTemplate Scenario.generator
                        "cursor" "backend" "fastify") w) in
  stat ["home"; "dev"; "app"; ".cursor"; "rules"; "mine.mdc"] (disk w')
    = Some (File "my rule").
Proof.
  intros es w w'.
  change (Some (File "my rule"))
    with (stat (outputDir_of (cwd w) "cursor" ++ ["rules"; "mine.mdc"]) (disk w)).
  apply (existing_content_is_kept Scenario.generator
           "cursor" "backend" "fastify" w es ["rules"; "mine.mdc"]).
  - reflexivity.
  - reflexivity.
  - reflexivity.
  - reflexivity.
  - intros _ _. repeat split.
Defined.

(** X3. After a run for Cursor that ended with the success block there is
    nothing at [.cursor/.cursorrules], wherever a [.cursorrules] came
    from. *)
Theorem no_cursorrules_after_a_successful_cursor_run
    this category framework w :
  let out := outputDir_of (cwd w) "cursor" in
  let w' := fst (run (generateTemplate this "cursor" category framework) w) in
  console w' = console w ++ Scenario.success_block "cursor" framework out ->
  stat (out ++ [".cursorrules"]) (disk w') = None.
Proof.
  intros out w' Hok.
  destruct (successful_run_facts this "cursor" category framework w Hok)
    as (d1 & es & m & wb & wc & D1 & _ & _ & _ & Hd2 & E3 & Hd).
  fold out in D1, Hd2, E3. fold w' in Hd.
  assert (D2 : stat out (disk wb) = Some (Dir m)).
  { rewrite Hd2. exact (stat_put_same _ _ _ _ D1). }
  rewrite Hd. destruct (get ".cursorrules" m) as [legacy |] eqn:G.
  - destruct (legacy_migration_returned _ _ _ _ _ D2 G E3) as (r & _ & _ & ->).
    rewrite (stat_put_below _ _ _ _ _ D2), stat_cons.
    now rewrite migrated_has_no_cursorrules.
  - rewrite (legacy_migration_nothing_to_move _ _ _ D2 G) in E3.
    injection E3 as <-. rewrite stat_app, D2, stat_cons. now rewrite G.
Qed.

Lemma no_cursorrules_after_a_successful_cursor_run_witness :
  let w := Scenario.boot
             (Scenario.one_template "cursor" "backend" "fastify"
                (Dir [ (".cursorrules", File "legacy rules") ]))
             (Dir []) Scenario.enter in
  let w' := fst (run (generateTemplate Scenario.generator
                        "cursor" "backend" "fastify") w) in
  stat ["home"; "dev"; "app"; ".cursor"; ".cursorrules"] (disk w') = None.
Proof.
  intros w w'.
  apply (no_cursorrules_after_a_successful_cursor_run Scenario.generator
           "backend" "fastify" w).
  reflexivity.
Defined.

(** ** When the generation fails *)

(** [mkdir -p] fails exactly when a regular file is on the way. *)
Lemma mkdirp_fails_iff p : forall n,
  mkdirp p n = None <->
  exists q c, is_prefix q p = true /\ stat q n = Some (File c).
Proof.
  induction p as [| a p IH]; intros n.
  - destruct n as [c0 | es]; simpl; split.
    + intros _. exists [], c0. split; reflexivity.
    + reflexivity.
    + discriminate.
    + intros (q & c & P & S). destruct q; [discriminate S | discriminate P].
  - destruct n as [c | es]; cbn [mkdirp].
    + split; [| reflexivity]. intros _. exists [], c. split; reflexivity.
    + destruct (mkdirp p _) as [c' |] eqn:E.
      * split; [discriminate |]. intros (q & c & P & S).
        destruct q as [| b q]; [discriminate S |].
        cbn [is_prefix] in P. apply andb_true_iff in P. destruct P as [Eb P].
        apply String.eqb_eq in Eb. subst b. rewrite stat_cons in S.
        assert (F : mkdirp p (match get a es with Some ch => ch | None => Dir [] end)
                    = None).
        { apply IH. exists q, c. split; [exact P |].
          destruct (get a es); [exact S | discriminate]. }
        congruence.
      * split; [intros _ | reflexivity].
        apply IH in E. destruct E as (q & c & P & S).
        exists (a :: q), c. split.
        -- cbn [is_prefix]. now rewrite String.eqb_refl.
        -- rewrite stat_cons. destruct (get a es) as [ch |]; [exact S |].
           destruct q; discriminate.
Qed.

Lemma path_eqb_eq p : forall q, path_eqb p q = true -> p = q.
Proof.
  induction p as [| a p IH]; intros [| b q]; simpl; try easy.
  rewrite andb_true_iff. intros [E H]. apply String.eqb_eq in E.
  f_equal; [exact E | now apply IH].
Qed.

(** X4. When the template exists and a regular file is at [.<tool>], or
    at one of the directories that lead to it, [generateTemplate] throws
    instead of printing an error: the creation of the output directory is
    outside its [try]. It has then printed nothing and changed nothing;
    what it throws is an [Error] without the [isTtyError] mark, the
    [EEXIST] error of [mkdir] when the file is at [.<tool>] itself. *)
Theorem generateTemplate_throws_when_the_output_directory_is_blocked
    this ai category framework w q c :
  let tp := templatePath_of this ai category framework in
  let out := outputDir_of (cwd w) ai in
  stat tp (disk w) <> None ->
  is_prefix q out = true ->
  stat q (disk w) = Some (File c) ->
  exists message,
    run (generateTemplate this ai category framework) w
      = (w, Thrown (JsError message false)) /\
    (q = out ->
     message = ("EEXIST: file already exists, mkdir " ++ quote out)%string).
Proof.
  intros tp out S P F. rewrite generateTemplate_steps. cbv zeta.
  fold tp. fold out.
  destruct (stat tp (disk w)) as [s |]; [clear S | congruence].
  assert (Mk : mkdirp out (disk w) = None) by (apply mkdirp_fails_iff; eauto).
  unfold ensureDir, fs_throw, throw. rewrite Mk.
  destruct (stat out (disk w)) eqn:So.
  - eexists. split; [reflexivity | reflexivity].
  - eexists. split; [reflexivity |]. intros ->. congruence.
Qed.

Lemma generateTemplate_throws_when_the_output_directory_is_blocked_witness :
  let w := Scenario.boot
             (Scenario.one_template "claude" "frontend" "react"
                (Dir [ ("project_knowledge.md", File "knowledge") ]))
             (Dir [ (".claude", File "not a directory") ]) Scenario.enter in
  run (generateTemplate Scenario.generator "claude" "frontend" "react") w =
  (w, Thrown (JsError
                "EEXIST: file already exists, mkdir '/home/dev/app/.claude'"
                false)).
Proof.
  intros w.
  destruct (generateTemplate_throws_when_the_output_directory_is_blocked
              Scenario.generator "claude" "frontend" "react" w
              ["home"; "dev"; "app"; ".claude"] "not a directory")
    as (message & Hrun & Hmsg).
  - discriminate.
  - reflexivity.
  - reflexivity.
  - rewrite Hrun, (Hmsg eq_refl). reflexivity.
Defined.

(** X5. When the template path is a regular file instead of a directory,
    the output directory is created all the same; the copy then refuses
    to put a file where a directory is, and the run prints that error in
    red and returns. *)
Theorem template_that_is_a_file_is_refused this ai category framework w c d1 :
  let tp := templatePath_of this ai category framework in
  let out := outputDir_of (cwd w) ai in
  stat tp (disk w) = Some (File c) ->
  mkdirp out (disk w) = Some d1 ->
  run (generateTemplate this ai category framework) w =
  (emit (Log Red ("❌ Error generating template: "
                    ++ "Cannot overwrite directory " ++ quote out
                    ++ " with non-directory " ++ quote tp ++ ".")%string)
     (with_disk d1 w),
   Returned tt).
Proof.
  intros tp out S Mk. rewrite generateTemplate_steps. cbv zeta.
  fold tp. fold out. rewrite S, (ensureDir_created _ _ _ Mk).
  assert (P : is_prefix tp out = false).
  { destruct (is_prefix tp out) eqn:P; [| reflexivity].
    assert (F : mkdirp out (disk w) = None)
      by (apply mkdirp_fails_iff; eauto).
    congruence. }
  destruct (mkdirp_result _ _ _ Mk) as [D1 _].
  unfold copy, checkPaths. cbn [disk with_disk].
  rewrite (mkdirp_frame _ _ _ _ Mk P), S, D1.
  destruct (path_eqb tp out) eqn:E.
  { apply path_eqb_is_prefix in E. congruence. }
  reflexivity.
Qed.

Lemma template_that_is_a_file_is_refused_witness :
  let w := Scenario.boot
             (Scenario.one_template "gemini" "infra" "docker" (File "oops"))
             (Dir []) Scenario.enter in
  let w' := fst (run (generateTemplate Scenario.generator
                        "gemini" "infra" "docker") w) in
  stat ["home"; "dev"; "app"; ".gemini"] (disk w') = Some (Dir []) /\
  console w' =
    [ Log Red ("❌ Error generating template: "
                 ++ "Cannot overwrite directory '/home/dev/app/.gemini'"
                 ++ " with non-directory "
                 ++ "'/opt/ai-templates/templates/gemini/infra/docker'.")%string ].
Proof.
  intros w w'. subst w'.
  rewrite (template_that_is_a_file_is_refused Scenario.generator
             "gemini" "infra" "docker" w "oops"
             (Scenario.machine
                (Scenario.one_template "gemini" "infra" "docker" (File "oops"))
                (Dir [ (".gemini", Dir []) ])));
    [| reflexivity | reflexivity].
  split; reflexivity.
Defined.

(** [generateTemplate] from the point where the output directory is
    there and the copy has returned. *)
Lemma generateTemplate_after_copy this ai category framework w w1 w2 :
  let tp := templatePath_of this ai category framework in
  let out := outputDir_of (cwd w) ai in
  ensureDir out w = (w1, Returned tt) ->
  copy tp out w1 = (w2, Returned tt) ->
  run (generateTemplate this ai category framework) w =
  match Scenario.legacy_migration ai out w2 with
  | (w3, Thrown e) =>
      (emit (Log Red ("❌ Error generating template: "
                        ++ errorMessage_of e)%string) w3, Returned tt)
  | (w3, Returned _) =>
      (emit (Log Gray ("📁 Files created in: " ++ path_to_string out)%string)
         (emit (Log Green ("✅ Successfully generated " ++ ai
                             ++ " template for " ++ framework ++ "!")%string)
            w3), Returned tt)
  | (w3, Killed) => (w3, Killed)
  end.
Proof.
  intros tp out E1 E2.
  assert (S : stat tp (disk w) <> None).
  { destruct (ensureDir_returned _ _ _ E1) as [Mk _].
    destruct (mkdirp_result _ _ _ Mk) as [D1 _].
    destruct (copy_returned _ _ _ _ _ D1 E2) as (es & m & S1 & P & _).
    rewrite (mkdirp_frame _ _ _ _ Mk P) in S1. congruence. }
  rewrite generateTemplate_steps. cbv zeta. fold tp. fold out.
  destruct (stat tp (disk w)); [| congruence].
  rewrite E1, E2. reflexivity.
Qed.

(** X6. For Cursor, when the copy has succeeded and left something at
    [.cursor/.cursorrules] while [.cursor/rules] is a regular file, the
    migration stops at the creation of the [rules] directory: the run
    prints that error in red, and the disk stays as the copy left it,
    [.cursorrules] included. *)
Theorem migration_is_blocked_by_a_file_named_rules
    this category framework w w1 w2 x :
  let tp := templatePath_of this "cursor" category framework in
  let out := outputDir_of (cwd w) "cursor" in
  let w' := fst (run (generateTemplate this "cursor" category framework) w) in
  ensureDir out w = (w1, Returned tt) ->
  copy tp out w1 = (w2, Returned tt) ->
  stat (out ++ [".cursorrules"]) (disk w2) <> None ->
  stat (out ++ ["rules"]) (disk w2) = Some (File x) ->
  disk w' = disk w2 /\
  console w' =
    console w ++
    [ Log Red ("❌ Error generating template: "
                 ++ "EEXIST: file already exists, mkdir "
                 ++ quote (out ++ ["rules"])%list)%string ].
Proof.
  intros tp out w' E1 E2 L R. subst w'.
  rewrite (generateTemplate_after_copy _ _ _ _ _ _ _ E1 E2). fold out.
  destruct (stat_parent _ _ _ _ R) as (m & D2).
  rewrite stat_app, D2, stat_cons in L, R.
  destruct (get ".cursorrules" m) as [legacy |] eqn:G; [| congruence].
  rewrite (legacy_migration_moves _ _ _ _ D2 G).
  unfold Scenario.rules_entries.
  destruct (get "rules" m) as [[y | r] |]; try discriminate.
  cbn [fst emit disk console].
  pose proof (with_disk_same _ _ (ensureDir_world _ _ _ _ E1)) as [C1 _].
  pose proof (with_disk_same _ _ (copy_world _ _ _ _ _ E2)) as [C2 _].
  rewrite C2, C1. split; reflexivity.
Qed.

Lemma migration_is_blocked_by_a_file_named_rules_witness :
  let w := Scenario.boot
             (Scenario.one_template "cursor" "backend" "fastify"
                (Dir [ (".cursorrules", File "legacy rules") ]))
             (Dir [ (".cursor", Dir [ ("rules", File "notes") ]) ])
             Scenario.enter in
  let w' := fst (run (generateTemplate Scenario.generator
                        "cursor" "backend" "fastify") w) in
  stat ["home"; "dev"; "app"; ".cursor"; ".cursorrules"] (disk w')
    = Some (File "legacy rules") /\
  console w' =
    [ Log Red ("❌ Error generating template: "
                 ++ "EEXIST: file already exists, mkdir "
                 ++ "'/home/dev/app/.cursor/rules'")%string ].
Proof.
  intros w w'.
  pose (tp := templatePath_of Scenario.generator "cursor" "backend" "fastify").
  pose (out := outputDir_of (cwd w) "cursor").
  destruct (migration_is_blocked_by_a_file_named_rules Scenario.generator
              "backend" "fastify" w
              (fst (ensureDir out w)) (fst (copy tp out (fst (ensureDir out w))))
              "notes") as [Hd Hc].
  - reflexivity.
  - reflexivity.
  - discriminate.
  - reflexivity.
  - split; [| exact Hc]. fold w' in Hd. rewrite Hd. reflexivity.
Defined.

(** X7. The migration does not ask whether [.cursorrules] is a file: a
    directory of that name is moved the same way, and it replaces a
    directory [rules/rules.mdc] as a whole instead of merging into it.
    This needs [.cursor/rules] not to be a regular file and
    [.cursor/rules/rules.mdc] not to be one either. *)
Theorem a_directory_named_cursorrules_is_migrated
    this category framework w w1 w2 legacy :
  let tp := templatePath_of this "cursor" category framework in
  let out := outputDir_of (cwd w) "cursor" in
  let w' := fst (run (generateTemplate this "cursor" category framework) w) in
  ensureDir out w = (w1, Returned tt) ->
  copy tp out w1 = (w2, Returned tt) ->
  stat (out ++ [".cursorrules"]) (disk w2) = Some (Dir legacy) ->
  (forall x, stat (out ++ ["rules"]) (disk w2) <> Some (File x)) ->
  (forall x, stat (out ++ ["rules"; "rules.mdc"]) (disk w2) <> Some (File x)) ->
  stat (out ++ [".cursorrules"]) (disk w') = None /\
  stat (out ++ ["rules"; "rules.mdc"]) (disk w') = Some (Dir legacy) /\
  console w' = console w ++ Scenario.success_block "cursor" framework out.
Proof.
  intros tp out w' E1 E2 L NF NR. subst w'.
  rewrite (generateTemplate_after_copy _ _ _ _ _ _ _ E1 E2). fold out.
  destruct (stat_parent _ _ _ _ L) as (m & D2).
  assert (G : get ".cursorrules" m = Some (Dir legacy)).
  { rewrite stat_app, D2, stat_cons in L.
    destruct (get ".cursorrules" m); [exact L | discriminate]. }
  rewrite (legacy_migration_moves _ _ _ _ D2 G).
  assert (exists r, Scenario.rules_entries m = Some r
                    /\ Scenario.same_kind (Dir legacy) (get "rules.mdc" r) = true)
    as (r & -> & ->).
  { unfold Scenario.rules_entries.
    rewrite stat_app, D2, stat_cons in NF.
    rewrite stat_app, D2, !stat_cons in NR.
    destruct (get "rules" m) as [[x | r] |].
    - now elim (NF x).
    - exists r. split; [reflexivity |]. unfold Scenario.same_kind.
      rewrite stat_cons in NR.
      destruct (get "rules.mdc" r) as [[y | y] |]; try reflexivity.
      now elim (NR y).
    - exists []. split; reflexivity. }
  cbn [fst emit disk console with_disk].
  pose proof (with_disk_same _ _ (ensureDir_world _ _ _ _ E1)) as [C1 _].
  pose proof (with_disk_same _ _ (copy_world _ _ _ _ _ E2)) as [C2 _].
  rewrite !(stat_put_below _ _ _ _ _ D2), C2, C1, <- app_assoc.
  repeat split.
  - rewrite stat_cons, migrated_has_no_cursorrules. reflexivity.
  - apply migrated_has_rules_mdc.
Qed.

Lemma a_directory_named_cursorrules_is_migrated_witness :
  let w := Scenario.boot
             (Scenario.one_template "cursor" "backend" "fastify"
                (Dir [ (".cursorrules", Dir [ ("a.md", File "A") ]) ]))
             (Dir [ (".cursor",
                     Dir [ ("rules",
                            Dir [ ("rules.mdc", Dir [ ("b.md", File "B") ]) ]) ]) ])
             Scenario.enter in
  let w' := fst (run (generateTemplate Scenario.generator
                        "cursor" "backend" "fastify") w) in
  stat ["home"; "dev"; "app"; ".cursor"; ".cursorrules"] (disk w') = None /\
  stat ["home"; "dev"; "app"; ".cursor"; "rules"; "rules.mdc"] (disk w')
    = Some (Dir [ ("a.md", File "A") ]) /\
  console w' =
    Scenario.success_block "cursor" "fastify" ["home"; "dev"; "app"; ".cursor"].
Proof.
  intros w w'.
  pose (tp := templatePath_of Scenario.generator "cursor" "backend" "fastify").
  pose (out := outputDir_of (cwd w) "cursor").
  apply (a_directory_named_cursorrules_is_migrated Scenario.generator
           "backend" "fastify" w
           (fst (ensureDir out w)) (fst (copy tp out (fst (ensureDir out w))))
           [ ("a.md", File "A") ]).
  - reflexivity.
  - reflexivity.
  - reflexivity.
  - intros x; discriminate.
  - intros x; discriminate.
Defined.

(** X8. For Cursor, when the copy has left a file [.cursor/.cursorrules]
    and [.cursor/rules/rules.mdc] is a directory, the move refuses to put
    a file where a directory is: the run prints that error in red and the
    disk stays as the copy left it. *)
Theorem migration_is_blocked_by_a_directory_named_rules_mdc
    this category framework w w1 w2 c x :
  let tp := templatePath_of this "cursor" category framework in
  let out := outputDir_of (cwd w) "cursor" in
  let w' := fst (run (generateTemplate this "cursor" category framework) w) in
  ensureDir out w = (w1, Returned tt) ->
  copy tp out w1 = (w2, Returned tt) ->
  stat (out ++ [".cursorrules"]) (disk w2) = Some (File c) ->
  stat (out ++ ["rules"; "rules.mdc"]) (disk w2) = Some (Dir x) ->
  disk w' = disk w2 /\
  console w' =
    console w ++
    [ Log Red ("❌ Error generating template: "
                 ++ "Cannot overwrite directory "
                 ++ quote (out ++ ["rules"; "rules.mdc"])%list
                 ++ " with non-directory "
                 ++ quote (out ++ [".cursorrules"])%list ++ ".")%string ].
Proof.
  intros tp out w' E1 E2 L R. subst w'.
  rewrite (generateTemplate_after_copy _ _ _ _ _ _ _ E1 E2). fold out.
  destruct (stat_parent _ _ _ _ L) as (m & D2).
  assert (G : get ".cursorrules" m = Some (File c)).
  { rewrite stat_app, D2, stat_cons in L.
    destruct (get ".cursorrules" m); [exact L | discriminate]. }
  rewrite (legacy_migration_moves _ _ _ _ D2 G).
  rewrite stat_app, D2, !stat_cons in R.
  unfold Scenario.rules_entries.
  destruct (get "rules" m) as [[y | r] |] eqn:Gr; try discriminate.
  cbv zeta. rewrite stat_cons in R.
  destruct (get "rules.mdc" r) as [d |]; [| discriminate].
  injection R as ->.
  cbn [Scenario.same_kind isDirectory Bool.eqb fst emit disk console with_disk].
  rewrite (set_get_same _ _ _ Gr), (put_stat_same _ _ _ D2).
  pose proof (with_disk_same _ _ (ensureDir_world _ _ _ _ E1)) as [C1 _].
  pose proof (with_disk_same _ _ (copy_world _ _ _ _ _ E2)) as [C2 _].
  rewrite C2, C1, <- app_assoc. split; reflexivity.
Qed.

Lemma migration_is_blocked_by_a_directory_named_rules_mdc_witness :
  let w := Scenario.boot
             (Scenario.one_template "cursor" "backend" "fastify"
                (Dir [ (".cursorrules", File "legacy rules") ]))
             (Dir [ (".cursor",
                     Dir [ ("rules", Dir [ ("rules.mdc", Dir []) ]) ]) ])
             Scenario.enter in
  let w' := fst (run (generateTemplate Scenario.generator
                        "cursor" "backend" "fastify") w) in
  stat ["home"; "dev"; "app"; ".cursor"; ".cursorrules"] (disk w')
    = Some (File "legacy rules") /\
  console w' =
    [ Log Red ("❌ Error generating template: "
                 ++ "Cannot overwrite directory "
                 ++ "'/home/dev/app/.cursor/rules/rules.mdc'"
                 ++ " with non-directory "
                 ++ "'/home/dev/app/.cursor/.cursorrules'.")%string ].
Proof.
  intros w w'.
  pose (tp := templatePath_of Scenario.generator "cursor" "backend" "fastify").
  pose (out := outputDir_of (cwd w) "cursor").
  destruct (migration_is_blocked_by_a_directory_named_rules_mdc
              Scenario.generator "backend" "fastify" w
              (fst (ensureDir out w)) (fst (copy tp out (fst (ensureDir out w))))
              "legacy rules" []) as [Hd Hc]; try reflexivity.
  split; [| exact Hc]. fold w' in Hd. rewrite Hd. reflexivity.
Defined.

(** ** The command as a whole *)

(** What [generateTemplate] throws is an error of the file system. *)
Lemma generateTemplate_throws_no_tty_error this ai category framework w e :
  snd (run (generateTemplate this ai category framework) w) = Thrown e ->
  has_isTtyError e = false.
Proof.
  rewrite generateTemplate_steps. cbv zeta.
  destruct (stat _ (disk w)); [| discriminate].
  unfold ensureDir, fs_throw, throw.
  destruct (mkdirp _ (disk w)) as [d1 |].
  - destruct (copy _ _ _) as [w2 [[] | e2 |]]; [| discriminate | discriminate].
    destruct (Scenario.legacy_migration _ _ w2) as [w3 [[] | e3 |]]; discriminate.
  - destruct (stat _ (disk w)); intros [= <-]; reflexivity.
Qed.

(** [generateTemplate] settles: it returns or throws. *)
Lemma generateTemplate_settles this ai category framework w w' :
  run (generateTemplate this ai category framework) w <> (w', Killed).
Proof.
  rewrite generateTemplate_steps. cbv zeta.
  destruct (stat _ (disk w)); [| discriminate].
  destruct (ensureDir _ w) as [w1 [[] | e1 |]] eqn:E1;
    [| discriminate | settled E1].
  destruct (copy _ _ w1) as [w2 [[] | e2 |]] eqn:E2;
    [| discriminate | settled E2].
  destruct (Scenario.legacy_migration _ _ w2) as [w3 [[] | e3 |]] eqn:E3;
    [discriminate | discriminate | settled E3].
Qed.

(** How [runCLI] ends: it returns, whatever was thrown on the way, unless
    the input ends at one of the three questions. *)
Lemma runCLI_outcome w :
  snd (run runCLI w) =
  if Scenario.input_closes w then Killed else Returned tt.
Proof.
  unfold Scenario.input_closes.
  unfold runCLI, run, bind, new_TemplateGenerator, try_catch.
  rewrite selectAI_eq.
  destruct (answers w (prompted w)) as [d1 | e1 |] eqn:A1.
  - rewrite selectCategory_eq. cbn [prompted answers emit next_prompt].
    destruct (answers w (S (prompted w))) as [d2 | e2 |] eqn:A2.
    + destruct (picked_category_own_key d2) as (c0 & l & Hk).
      erewrite selectFramework_own_key by exact Hk.
      cbn [prompted answers emit next_prompt].
      destruct (answers w (S (S (prompted w)))) as [d3 | e3 |] eqn:A3.
      * unfold console_log.
        match goal with
        | |- context [generateTemplate ?g ?a ?c ?f ?v] =>
            destruct (generateTemplate g a c f v) as [w' [[] | e |]] eqn:G
        end.
        -- reflexivity.
        -- destruct (has_isTtyError e); reflexivity.
        -- exfalso. exact (generateTemplate_settles _ _ _ _ _ _ G).
      * destruct (has_isTtyError e3); reflexivity.
      * reflexivity.
    + destruct (has_isTtyError e2); reflexivity.
    + reflexivity.
  - destruct (has_isTtyError e1); reflexivity.
  - reflexivity.
Qed.

(** What [generateTemplate] prints last when it returns: the line that
    ends the success block, or a red line. When it throws it has printed
    nothing. *)
Lemma generateTemplate_last_line this ai category framework w :
  let r := run (generateTemplate this ai category framework) w in
  match snd r with
  | Returned _ =>
      exists before last,
        console (fst r) = before ++ [last] /\
        ((exists text, last = Log Red text) \/
         (exists p, last = Log Gray ("📁 Files created in: "
                                       ++ path_to_string p)%string))
  | Thrown e => console (fst r) = console w
  | Killed => False
  end.
Proof.
  cbv zeta. rewrite generateTemplate_steps. cbv zeta.
  destruct (stat _ (disk w)).
  2:{ cbn [fst snd emit console]. eexists _, _.
      split; [reflexivity |]. left. eexists; reflexivity. }
  destruct (ensureDir _ w) as [w1 [[] | e1 |]] eqn:E1; [| | settled E1].
  2:{ cbn [fst snd].
      exact (proj1 (with_disk_same _ _ (ensureDir_world _ _ _ _ E1))). }
  destruct (copy _ _ w1) as [w2 [[] | e2 |]] eqn:E2; [| | settled E2].
  2:{ cbn [fst snd emit console]. eexists _, _.
      split; [reflexivity |]. left. eexists; reflexivity. }
  destruct (Scenario.legacy_migration _ _ w2) as [w3 [[] | e3 |]] eqn:E3;
    [| | settled E3]; cbn [fst snd emit console]; eexists _, _;
    (split; [reflexivity |]); [right | left]; eexists; reflexivity.
Qed.

(** What [runCLI] prints last when it returns. *)
Lemma runCLI_last_line w :
  Scenario.input_closes w = false ->
  exists before last,
    console (fst (run runCLI w)) = before ++ [last] /\
    ((exists text, last = Log Red text) \/
     (exists p, last = Log Gray ("📁 Files created in: "
                                   ++ path_to_string p)%string)).
Proof.
  unfold Scenario.input_closes.
  unfold runCLI, run, bind, new_TemplateGenerator, try_catch.
  rewrite selectAI_eq.
  assert (Red_line : forall e v,
            exists before last,
              console
                (fst ((if has_isTtyError e
                       then console_log Red
                              "❌ Prompt couldn't be rendered in the current environment"
                       else console_log Red
                              ("❌ Error: " ++ errorMessage_of e)%string) v))
              = before ++ [last] /\
              ((exists text, last = Log Red text) \/
               (exists p, last = Log Gray ("📁 Files created in: "
                                             ++ path_to_string p)%string))).
  { intros e v. destruct (has_isTtyError e); cbn [console_log fst emit console];
      eexists _, _; (split; [reflexivity |]); left; eexists; reflexivity. }
  destruct (answers w (prompted w)) as [d1 | e1 |] eqn:A1;
    [| intros _; apply Red_line | discriminate].
  rewrite selectCategory_eq. cbn [prompted answers emit next_prompt].
  destruct (answers w (S (prompted w))) as [d2 | e2 |] eqn:A2;
    [| intros _; apply Red_line | discriminate].
  destruct (picked_category_own_key d2) as (c0 & l & Hk).
  erewrite selectFramework_own_key by exact Hk.
  cbn [prompted answers emit next_prompt].
  destruct (answers w (S (S (prompted w)))) as [d3 | e3 |] eqn:A3;
    [| intros _; apply Red_line | discriminate].
  intros _. unfold console_log at 1.
  match goal with
  | |- context [generateTemplate ?g ?a ?c ?f ?v] =>
      pose proof (generateTemplate_last_line g a c f v) as T;
      pose proof (generateTemplate_throws_no_tty_error g a c f v) as N;
      cbv zeta in T; unfold run in T, N;
      destruct (generateTemplate g a c f v) as [w' [[] | e |]]
  end; cbn [fst snd] in T, N.
  - exact T.
  - rewrite (N e eq_refl). cbn [console_log fst emit console].
    eexists _, _. split; [reflexivity |]. left. eexists; reflexivity.
  - contradiction.
Qed.

Lemma rejection_is_no_closed_input w e :
  Scenario.first_rejection w = Some e -> Scenario.input_closes w = false.
Proof.
  unfold Scenario.first_rejection, Scenario.input_closes.
  destruct (answers w (prompted w)); [| reflexivity | discriminate].
  destruct (answers w (S (prompted w))); [| reflexivity | discriminate].
  destruct (answers w (S (S (prompted w)))); [discriminate | reflexivity |].
  discriminate.
Qed.

(** C4, as the code has it. [runCLI] never rejects: it catches whatever
    the selection or the generation throws, an error with the
    [isTtyError] mark included, prints one red line and returns, so that
    the handler of the entry point and its [process.exit(1)] are never
    reached. The process therefore ends with status 0 whenever every
    question is answered or rejected; the one other ending is not the
    program's doing: when the input ends while a question is pending (no
    terminal), the prompt library ends the process with SIGINT. For a
    rejection with the [isTtyError] mark the red line is
    "Prompt couldn't be rendered in the current environment", and the
    status is 0. Whatever fails in the selection or in the generation is
    printed: a run with status 0 has printed last either the line that
    ends the success block or a red line. *)
Theorem cli_never_exits_with_an_error_code w :
  (forall w' e, run runCLI w <> (w', Thrown e)) /\
  (snd (cli w) = killed_by_SIGINT <-> Scenario.input_closes w = true) /\
  (Scenario.input_closes w = false ->
   snd (cli w) = 0 /\
   exists before last,
     console (fst (cli w)) = before ++ [last] /\
     ((exists text, last = Log Red text) \/
      (exists p, last = Log Gray ("📁 Files created in: "
                                    ++ path_to_string p)%string))) /\
  (forall e, Scenario.first_rejection w = Some e -> has_isTtyError e = true ->
     snd (cli w) = 0 /\
     exists before,
       console (fst (cli w)) =
       (before ++
        [Log Red "❌ Prompt couldn't be rendered in the current environment"])%list).
Proof.
  pose proof (runCLI_outcome w) as O.
  assert (Zero : Scenario.input_closes w = false -> snd (cli w) = 0).
  { intros C. unfold cli. rewrite C in O.
    destruct (run runCLI w) as [w1 r]. cbn [snd] in O. now subst r. }
  split; [| split; [| split]].
  - intros w' e H. rewrite H in O. cbn [snd] in O.
    destruct (Scenario.input_closes w); discriminate.
  - unfold cli. destruct (run runCLI w) as [w1 r]. cbn [snd] in O. subst r.
    destruct (Scenario.input_closes w); cbn [snd]; split;
      try reflexivity; discriminate.
  - intros C. split; [exact (Zero C) |].
    pose proof (runCLI_last_line w C) as L.
    unfold cli. rewrite C in O.
    destruct (run runCLI w) as [w1 r]. cbn [fst snd] in O, L. subst r.
    exact L.
  - intros e Hrej Htty.
    split; [exact (Zero (rejection_is_no_closed_input w e Hrej)) |].
    unfold Scenario.first_rejection in Hrej.
    unfold cli, runCLI, run, bind, new_TemplateGenerator, try_catch.
    rewrite selectAI_eq.
    destruct (answers w (prompted w)) as [d1 | e1 |] eqn:A1; [| | discriminate].
    + rewrite selectCategory_eq. cbn [prompted answers emit next_prompt].
      destruct (answers w (S (prompted w))) as [d2 | e2 |] eqn:A2;
        [| | discriminate].
      * destruct (picked_category_own_key d2) as (c0 & l & Hk).
        erewrite selectFramework_own_key by exact Hk.
        cbn [prompted answers emit next_prompt].
        destruct (answers w (S (S (prompted w)))) as [d3 | e3 |] eqn:A3;
          [discriminate | | discriminate].
        injection Hrej as ->. rewrite Htty.
        eexists; reflexivity.
      * injection Hrej as ->. rewrite Htty. eexists; reflexivity.
    + injection Hrej as ->. rewrite Htty. eexists; reflexivity.
Qed.

Lemma cli_never_exits_with_an_error_code_witness :
  let w := Scenario.boot (Dir []) (Dir []) Scenario.terminal_check_fails in
  snd (cli w) = 0 /\
  exists before,
    console (fst (cli w)) =
    (before ++
     [Log Red "❌ Prompt couldn't be rendered in the current environment"])%list.
Proof.
  intros w.
  destruct (cli_never_exits_with_an_error_code w) as (_ & _ & _ & H).
  apply (H Scenario.no_tty_error); reflexivity.
Defined.

(** The claim of C4 fails where it says that the error of an unsupported
    terminal leaves [runCLI] and makes the exit code non-zero. With no
    terminal, as inquirer 8 has it, the input ends while the first
    question is pending and the library ends the process with SIGINT:
    [runCLI] has not rejected, nothing but the banner and the question was
    printed, and the handler of the entry point has not run. And where the
    prompt does reject with the [isTtyError] mark (the terminal check
    switched on), [runCLI] prints the red line and the process exits
    with 0. *)
Lemma unsupported_terminal_error_does_not_propagate :
  let closed := Scenario.boot (Dir []) (Dir []) Scenario.no_terminal in
  let checked := Scenario.boot (Dir []) (Dir []) Scenario.terminal_check_fails in
  cli closed =
    (mkWorld (disk closed) (cwd closed) (dirname closed)
       [ Log Blue "🚀 AI Templates Generator";
         Log Gray ("Generate templates for your favorite AI tools" ++ nl);
         Prompt "Please select the AI you want to use:" (JArray AI_OPTIONS) ]
       (answers closed) 1 (refusal closed),
     killed_by_SIGINT) /\
  snd (run runCLI closed) = Killed /\
  answers checked 0 = Rejects Scenario.no_tty_error /\
  has_isTtyError Scenario.no_tty_error = true /\
  cli checked =
    (mkWorld (disk checked) (cwd checked) (dirname checked)
       [ Log Blue "🚀 AI Templates Generator";
         Log Gray ("Generate templates for your favorite AI tools" ++ nl);
         Prompt "Please select the AI you want to use:" (JArray AI_OPTIONS);
         Log Red "❌ Prompt couldn't be rendered in the current environment" ]
       (answers checked) 1 (refusal checked),
     0).
Proof. cbv zeta. repeat split. Qed.

(** X9. When the terminal answers the three questions, [runCLI] calls
    [generateTemplate] with the values of the choices picked: a tool of
    [AI_OPTIONS], a category of [CATEGORY_OPTIONS] and a framework of the
    list registered for that very category. What [generateTemplate]
    throws (the output directory could not be created) is printed as
    "Error: ..." and [runCLI] returns. *)
Theorem runCLI_generates_what_was_picked w d1 d2 d3 :
  answers w (prompted w) = Pick d1 ->
  answers w (S (prompted w)) = Pick d2 ->
  answers w (S (S (prompted w))) = Pick d3 ->
  let ai := Scenario.picked AI_OPTIONS d1 in
  let category := Scenario.picked CATEGORY_OPTIONS d2 in
  exists fws,
    assoc category FRAMEWORK_OPTIONS_own = Some fws /\
    let framework := Scenario.picked fws d3 in
    In ai (values AI_OPTIONS) /\
    In category (values CATEGORY_OPTIONS) /\
    In framework (values fws) /\
    let generator := mkGenerator (path_join (dirname w) [".."; "templates"]) in
    run runCLI w =
    match run (generateTemplate generator ai category framework)
            (Scenario.after_selection w category fws ai framework) with
    | (w', Returned _) => (w', Returned tt)
    | (w', Thrown e) =>
        (emit (Log Red ("❌ Error: " ++ errorMessage_of e)) w', Returned tt)
    | (w', Killed) => (w', Killed)
    end.
Proof.
  intros A1 A2 A3 ai category.
  destruct (picked_category_own_key d2) as (c0 & l & Hk).
  exists (c0 :: l). split; [exact Hk |]. cbv zeta.
  split; [apply picked_is_offered; discriminate |].
  split; [apply picked_is_offered; discriminate |].
  split; [apply picked_is_offered; discriminate |].
  unfold runCLI, run, bind, new_TemplateGenerator, try_catch.
  rewrite selectAI_eq, A1, selectCategory_eq.
  cbn [prompted answers emit next_prompt]. rewrite A2.
  erewrite selectFramework_own_key by exact Hk.
  cbn [prompted answers emit next_prompt]. rewrite A3.
  unfold console_log.
  change (value (nth (d1 mod 3) AI_OPTIONS (mkChoice "Cursor" "cursor")))
    with ai.
  change (value (nth (d2 mod 3) CATEGORY_OPTIONS (mkChoice "Backend" "backend")))
    with category.
  change (value (nth (d3 mod length (c0 :: l)) (c0 :: l) c0))
    with (Scenario.picked (c0 :: l) d3).
  fold (Scenario.after_selection w category (c0 :: l) ai
          (Scenario.picked (c0 :: l) d3)).
  match goal with
  | |- context [generateTemplate ?g ?a ?c ?f ?v] =>
      pose proof (generateTemplate_throws_no_tty_error g a c f v) as T;
      unfold run in T;
      destruct (generateTemplate g a c f v) as [w' [[] | e |]]
  end.
  - reflexivity.
  - cbn [snd] in T. rewrite (T e eq_refl). reflexivity.
  - reflexivity.
Qed.

Lemma runCLI_generates_what_was_picked_witness :
  let w := Scenario.boot
             (Scenario.one_template "claude" "frontend" "react"
                (Dir [ ("project_knowledge.md", File "knowledge") ]))
             (Dir [])
             (fun n => match n with 0 => Pick 1 | 1 => Pick 4 | _ => Pick 5 end) in
  exists fws,
    assoc "frontend" FRAMEWORK_OPTIONS_own = Some fws /\
    In "react" (values fws) /\
    stat ["home"; "dev"; "app"; ".claude"; "project_knowledge.md"]
      (disk (fst (run runCLI w))) = Some (File "knowledge").
Proof.
  intros w.
  destruct (runCLI_generates_what_was_picked w 1 4 5)
    as (fws & Hk & _ & _ & Hin & Hrun); try reflexivity.
  exists fws. split; [exact Hk |]. split.
  - injection Hk as <-. simpl. tauto.
  - rewrite Hrun. injection Hk as <-. reflexivity.
Defined.

(** X10. When one of the three prompts rejects, nothing is generated: the
    disk is left as it was, [runCLI] prints one red line - the one for an
    unsupported terminal when the thrown value carries [isTtyError], and
    otherwise "Error: " with the message of the error, or with "Unknown
    error" for a thrown value that is no [Error] - and the process exits
    with code 0. *)
Theorem a_rejected_prompt_is_reported w e :
  Scenario.first_rejection w = Some e ->
  disk (fst (cli w)) = disk w /\
  snd (cli w) = 0 /\
  exists before,
    console (fst (cli w)) =
    (before ++
     [ Log Red (if has_isTtyError e
                then "❌ Prompt couldn't be rendered in the current environment"
                else "❌ Error: " ++ errorMessage_of e) ])%list.
Proof.
  intros Hrej. unfold Scenario.first_rejection in Hrej.
  unfold cli, runCLI, run, bind, new_TemplateGenerator, try_catch.
  rewrite selectAI_eq.
  destruct (answers w (prompted w)) as [d1 | e1 |] eqn:A1; [| | discriminate].
  - rewrite selectCategory_eq. cbn [prompted answers emit next_prompt].
    destruct (answers w (S (prompted w))) as [d2 | e2 |] eqn:A2;
      [| | discriminate].
    + destruct (picked_category_own_key d2) as (c0 & l & Hk).
      erewrite selectFramework_own_key by exact Hk.
      cbn [prompted answers emit next_prompt].
      destruct (answers w (S (S (prompted w)))) as [d3 | e3 |] eqn:A3;
        [discriminate | | discriminate].
      injection Hrej as ->.
      destruct (has_isTtyError e); repeat split; eexists; reflexivity.
    + injection Hrej as ->.
      destruct (has_isTtyError e); repeat split; eexists; reflexivity.
  - injection Hrej as ->.
    destruct (has_isTtyError e); repeat split; eexists; reflexivity.
Qed.

Lemma a_rejected_prompt_is_reported_witness :
  let w := Scenario.boot (Dir []) (Dir [])
             (fun n => match n with
                       | 0 => Pick 0
                       | _ => Rejects (JsOther false)
                       end) in
  snd (cli w) = 0 /\
  exists before,
    console (fst (cli w)) = (before ++ [ Log Red "❌ Error: Unknown error" ])%list.
Proof.
  intros w.
  destruct (a_rejected_prompt_is_reported w (JsOther false)) as (_ & H0 & H1).
  - reflexivity.
  - split; [exact H0 | exact H1].
Defined.

(** ** Selecting a framework *)

Lemma selectFramework_unknown_category_witness :
  run (selectFramework Scenario.generator "mobile")
    (Scenario.boot (Dir []) (Dir []) Scenario.enter) =
  (Scenario.boot (Dir []) (Dir []) Scenario.enter,
   Thrown (JsError "No frameworks available for category: mobile" false)).
Proof.
  apply (selectFramework_unknown_category Scenario.generator "mobile");
    reflexivity.
Defined.

(** X12. For a category that is a key of the table, [selectFramework]
    asks one question whose choices are exactly the list registered under
    that key; when the terminal picks, the value returned is that of an
    entry of this list, and when the prompt rejects, [selectFramework]
    throws what the prompt threw (when the input ends instead, so does the
    process). *)
Theorem selectFramework_offers_the_registered_list this category fws w :
  assoc category FRAMEWORK_OPTIONS_own = Some fws ->
  fws <> [] ->
  let w' := fst (run (selectFramework this category) w) in
  let r := snd (run (selectFramework this category) w) in
  console w' =
    (console w ++
     [ Prompt ("Please select the " ++ category ++ " framework:")
         (JArray fws) ])%list /\
  match answers w (prompted w) with
  | Pick downs =>
      r = Returned (Scenario.picked fws downs) /\
      In (Scenario.picked fws downs) (values fws)
  | Rejects e => r = Thrown e
  | Closed => r = Killed
  end.
Proof.
  intros Hk Hne w' r. subst w' r.
  destruct fws as [| c0 l]; [congruence |].
  unfold run. rewrite (selectFramework_own_key this category c0 l w Hk).
  split; [reflexivity |].
  destruct (answers w (prompted w)) as [d | e |]; [| reflexivity | reflexivity].
  split; [reflexivity |]. apply picked_is_offered. discriminate.
Qed.

Lemma selectFramework_offers_the_registered_list_witness :
  let w := Scenario.boot (Dir []) (Dir []) (fun _ => Pick 7) in
  snd (run (selectFramework Scenario.generator "infra") w) = Returned "terraform".
Proof.
  intros w.
  destruct (selectFramework_offers_the_registered_list Scenario.generator "infra"
              [ mkChoice "Docker" "docker"; mkChoice "Kubernetes" "kubernetes";
                mkChoice "Terraform" "terraform"; mkChoice "AWS CDK" "aws-cdk";
                mkChoice "Pulumi" "pulumi" ] w) as [_ H].
  - reflexivity.
  - discriminate.
  - exact (proj1 H).
Defined.

(** ** The paths of the offered choices *)

(** X13. For every tool, category and framework the tables offer, the
    template path is the templates root followed by the three identifiers
    as three directory names, and the output directory is the directory
    named [.<tool>] directly in the working directory: no identifier of
    the tables is split or resolved away by [path.join]. *)
Theorem paths_of_the_offered_choices this here t k fws f :
  In t AI_OPTIONS ->
  In (k, fws) FRAMEWORK_OPTIONS_own ->
  In f fws ->
  templatePath_of this (value t) k (value f)
    = templatesDir this ++ [value t; k; value f] /\
  outputDir_of here (value t) = here ++ [("." ++ value t)%string].
Proof.
  intros Ht Hk Hf. simpl in Ht, Hk.
  destruct Ht as [<- | [<- | [<- | []]]];
    (destruct Hk as [Hk | [Hk | [Hk | []]]]; injection Hk as <- <-;
     simpl in Hf;
     destruct Hf as [<- | [<- | [<- | [<- | [<- | []]]]]];
     (split; [| reflexivity]);
     change (templatePath_of this ?a ?b ?c)
       with (((templatesDir this ++ [a]) ++ [b]) ++ [c]);
     now rewrite <- !app_assoc).
Qed.

Lemma paths_of_the_offered_choices_witness :
  templatePath_of Scenario.generator "gemini" "infra" "aws-cdk"
    = ["opt"; "ai-templates"; "templates"; "gemini"; "infra"; "aws-cdk"] /\
  outputDir_of ["home"; "dev"; "app"] "gemini"
    = ["home"; "dev"; "app"; ".gemini"].
Proof.
  apply (paths_of_the_offered_choices Scenario.generator ["home"; "dev"; "app"]
           (mkChoice "Gemini" "gemini") "infra"
           [ mkChoice "Docker" "docker"; mkChoice "Kubernetes" "kubernetes";
             mkChoice "Terraform" "terraform"; mkChoice "AWS CDK" "aws-cdk";
             mkChoice "Pulumi" "pulumi" ]
           (mkChoice "AWS CDK" "aws-cdk")); simpl; tauto.
Defined.

(** ** What a successful run needed *)

(** A copy that succeeds met no clash. *)
Lemma mergeNode_ok_compatible : forall s,
  wf s = true ->
  forall sp dp d n, mergeNode sp dp s d = (n, None) -> compatible s d = true.
Proof.
  induction s as [c | es IH] using node_induction; intros W sp dp d n H.
  - simpl in *. destruct d as [[? | ?] |]; congruence.
  - destruct (wf_dir _ W) as [ND WF].
    rewrite mergeNode_dir in H.
    destruct d as [[c | ds] |]; [discriminate | | reflexivity].
    destruct (mergeItems sp dp es ds) as [ds' e] eqn:Hm.
    injection H as <- ->.
    cbn [compatible]. apply forallb_forall. intros [k v] I.
    rewrite Forall_forall in IH, WF. cbn [fst snd].
    destruct (mergeItems_ok_entry _ _ _ _ _ ND Hm _ _ (In_get _ _ _ ND I))
      as (nk & Ek & _).
    exact (IH _ I (WF _ I) _ _ _ _ Ek).
Qed.

(** X14. A run that ended with the success block (from a well-formed
    disk, the template being a directory) did meet the conditions of the
    copy: the output directory could be created, it does not lie inside
    the template, and it held no regular file where the template has a
    directory nor a directory where the template has a file. *)
Theorem a_successful_run_met_no_clash this ai category framework w es :
  let tp := templatePath_of this ai category framework in
  let out := outputDir_of (cwd w) ai in
  let w' := fst (run (generateTemplate this ai category framework) w) in
  wf (disk w) = true ->
  stat tp (disk w) = Some (Dir es) ->
  console w' = console w ++ Scenario.success_block ai framework out ->
  mkdirp out (disk w) <> None /\
  is_prefix tp out = false /\
  compatible (Dir es) (stat out (disk w)) = true.
Proof.
  intros tp out w' W S Hok.
  destruct (generateTemplate_success_steps this ai category framework w Hok)
    as (w1 & w2 & w3 & _ & E1 & E2 & _ & _).
  fold tp in E2. fold out in E1, E2.
  destruct (ensureDir_returned _ _ _ E1) as [Mk _].
  destruct (mkdirp_result _ _ _ Mk) as [D1 NF].
  destruct (copy_returned _ _ _ _ _ D1 E2) as (es' & m & S1 & P & Hm & _).
  rewrite (mkdirp_frame _ _ _ _ Mk P), S in S1. injection S1 as <-.
  split; [congruence |]. split; [exact P |].
  destruct (stat out (disk w)) as [[c | ds] |].
  - now elim (NF c).
  - apply (mergeNode_ok_compatible _ (wf_stat _ _ _ W S) tp out _ (Dir m)).
    rewrite mergeNode_dir, Hm. reflexivity.
  - reflexivity.
Qed.

Lemma a_successful_run_met_no_clash_witness :
  let es := [ ("rules", Dir [ ("code-style.mdc", File "Code Style") ]) ] in
  let w := Scenario.boot
             (Scenario.one_template "cursor" "backend" "fastify" (Dir es))
             (Dir [ (".cursor", Dir [ ("rules", Dir []) ]) ]) Scenario.enter in
  compatible (Dir es) (stat ["home"; "dev"; "app"; ".cursor"] (disk w)) = true.
Proof.
  intros es w.
  apply (a_successful_run_met_no_clash Scenario.generator
           "cursor" "backend" "fastify" w es); reflexivity.
Defined.

(** After [mkdir -p], every path that leads to the new directory is a
    directory. *)
Lemma mkdirp_prefix_is_dir p : forall q n n',
  mkdirp p n = Some n' -> is_prefix q p = true ->
  exists es, stat q n' = Some (Dir es).
Proof.
  induction p as [| a p IH]; intros q n n' Mk P.
  - destruct q; [| discriminate]. destruct n as [c | es]; [discriminate |].
    injection Mk as <-. now exists es.
  - destruct n as [c | es]; cbn [mkdirp] in Mk; [discriminate |].
    destruct (mkdirp p _) as [c' |] eqn:E; [| discriminate].
    injection Mk as <-. destruct q as [| b q].
    + eexists; reflexivity.
    + cbn [is_prefix] in P. apply andb_true_iff in P. destruct P as [Eb P].
      apply String.eqb_eq in Eb. subst b.
      rewrite stat_cons, get_set_same. exact (IH _ _ _ E P).
Qed.

(** X15. When the output directory lies inside the template directory
    (the command is run from within the template), the output directory
    is created, inside the template; the copy then refuses to copy a
    directory into itself, and the run prints that error in red and
    returns. *)
Theorem output_directory_inside_the_template_is_refused
    this ai category framework w es d1 :
  let tp := templatePath_of this ai category framework in
  let out := outputDir_of (cwd w) ai in
  stat tp (disk w) = Some (Dir es) ->
  is_prefix tp out = true ->
  mkdirp out (disk w) = Some d1 ->
  run (generateTemplate this ai category framework) w =
  (emit (Log Red ("❌ Error generating template: "
                    ++ (if path_eqb tp out
                        then "Source and destination must not be the same."
                        else "Cannot copy " ++ quote tp
                             ++ " to a subdirectory of itself, "
                             ++ quote out ++ "."))%string)
     (with_disk d1 w),
   Returned tt).
Proof.
  intros tp out S P Mk. rewrite generateTemplate_steps. cbv zeta.
  fold tp. fold out. rewrite S, (ensureDir_created _ _ _ Mk).
  destruct (mkdirp_result _ _ _ Mk) as [D1 _].
  destruct (mkdirp_prefix_is_dir _ _ _ _ Mk P) as (es' & S1).
  unfold copy, checkPaths. cbn [disk with_disk]. rewrite S1, D1, P.
  destruct (path_eqb tp out); reflexivity.
Qed.

Lemma output_directory_inside_the_template_is_refused_witness :
  let t := Dir [ ("rules", Dir [ ("code-style.mdc", File "Code Style") ]) ] in
  let w := mkWorld
             (Scenario.machine
                (Scenario.one_template "cursor" "backend" "fastify" t) (Dir []))
             ["opt"; "ai-templates"; "templates"; "cursor"; "backend"; "fastify"]
             Scenario.dist_dir [] Scenario.enter 0 Scenario.library_text in
  let w' := fst (run (generateTemplate Scenario.generator
                        "cursor" "backend" "fastify") w) in
  stat ["opt"; "ai-templates"; "templates"; "cursor"; "backend"; "fastify";
        ".cursor"] (disk w') = Some (Dir []) /\
  console w' =
    [ Log Red ("❌ Error generating template: "
                 ++ "Cannot copy "
                 ++ "'/opt/ai-templates/templates/cursor/backend/fastify'"
                 ++ " to a subdirectory of itself, "
                 ++ "'/opt/ai-templates/templates/cursor/backend/fastify/.cursor'.")%string ].
Proof.
  intros t w w'. subst w'.
  rewrite (output_directory_inside_the_template_is_refused Scenario.generator
             "cursor" "backend" "fastify" w
             [ ("rules", Dir [ ("code-style.mdc", File "Code Style") ]) ]
             (Scenario.machine
                (Scenario.one_template "cursor" "backend" "fastify"
                   (Dir [ ("rules", Dir [ ("code-style.mdc", File "Code Style") ]);
                          (".cursor", Dir []) ]))
                (Dir [])));
    [| reflexivity | reflexivity | reflexivity].
  split; reflexivity.
Defined.
